(** * Logistic regression by batch gradient descent

    A shallow embedding of [LogisticRegression/logisticregression.py]
    (class [LogisticRegression]: [__init__], [sigmoid], [fit], [predict])
    and the properties of its specification.

    The program computes with numpy [float64] values.  The embedding is
    written once over an interface [FloatOps] of the scalar operations the
    program uses, so every structural theorem holds for whatever those
    operations are; the interface is then instantiated with exact
    extended-real arithmetic ([xreal]: the reals with the IEEE special
    values, without rounding) for the statements that speak about real
    numbers. *)

From Stdlib Require Import String Reals Lra.
From Stdlib Require Import List ZArith Bool Lia.
Import ListNotations.

Local Open Scope nat_scope.

Set Implicit Arguments.

(** ** Exceptions and the error monad *)

(** The exceptions the program can raise: numpy's [ValueError] for operands
    that cannot be broadcast together, numpy's [ValueError] for [np.dot]
    operands whose shapes are not aligned, Python's [ZeroDivisionError] for
    [1 / num_samples], and the [TypeError] of arithmetic on [None]
    ([predict] before any [fit]). *)
Inductive exn : Type :=
| ValueError_broadcast
| ValueError_not_aligned
| ZeroDivisionError
| TypeError_none.

Inductive result (A : Type) : Type :=
| Ok (a : A)
| Raise (e : exn).
Arguments Ok {A} a.
Arguments Raise {A} e.

Definition bind {A B : Type} (r : result A) (k : A -> result B) : result B :=
  match r with
  | Ok a => k a
  | Raise e => Raise e
  end.

Notation "x <- r ;; k" := (bind r (fun x => k))
  (at level 61, r at next level, right associativity).

(** Both shape failures are dimension mismatches. *)
Definition dimension_mismatch (e : exn) : bool :=
  match e with
  | ValueError_broadcast | ValueError_not_aligned => true
  | _ => false
  end.

(** ** The scalar operations *)

(** What the program asks of [float64]: constants, the four operations,
    negation, [np.exp], [np.log], the comparison [<], [float('inf')] and the
    conversion of a Python [int]. *)
Class FloatOps (num : Type) : Type := {
  fzero : num;
  fone : num;
  finf : num;
  fadd : num -> num -> num;
  fsub : num -> num -> num;
  fmul : num -> num -> num;
  fdiv : num -> num -> num;
  fopp : num -> num;
  fexp : num -> num;
  flog : num -> num;
  fltb : num -> num -> bool;
  of_int : Z -> num
}.

(** ** Arrays *)

(** A two-dimensional array: its rows and its number of columns (kept apart,
    since an array of shape (0, F) has no row to read F from). *)
Record matrix (num : Type) : Type := {
  rows : list (list num);
  ncols : nat
}.

Definition nrows {num : Type} (X : matrix num) : nat := length (rows X).

(** numpy arrays are rectangular. *)
Definition rectangular {num : Type} (X : matrix num) : Prop :=
  Forall (fun r => length r = ncols X) (rows X).

(** Output lines of [print]. *)
Inductive line (num : Type) : Type :=
| Loss_after_iteration (i : nat) (loss : num)
| Stopped_early_at_iteration (iteration : nat).
Arguments Stopped_early_at_iteration {num} iteration.

(** What [plt.plot] ... [plt.show] are given. *)
Record figure (num : Type) : Type := {
  training_curve : list num;
  validation_curve : option (list num);
  title : string
}.

(** The instance: configuration and parameters ([None] until [fit]). *)
Record LogisticRegression (num : Type) : Type := {
  weights : option (list num);
  bias : option num;
  threshold : num;
  learning_rate : num;
  max_iteration : Z;
  patience : option Z
}.

(** Control leaving a loop body. *)
Inductive control : Type := Continue | Break.

(** [for i in range(n)] from index [i], with [break]: the final state and
    the index at which the loop was left by [break], if it was. *)
Fixpoint for_range {S : Type} (body : nat -> S -> result (S * control))
    (i n : nat) (st : S) : result (S * option nat) :=
  match n with
  | O => Ok (st, None)
  | Datatypes.S n' =>
      match body i st with
      | Raise e => Raise e
      | Ok (st', Break) => Ok (st', Some i)
      | Ok (st', Continue) => for_range body (Datatypes.S i) n' st'
      end
  end.

Section Program.

Context {num : Type} {ops : FloatOps num}.

(** *** numpy on one-dimensional arrays *)

Fixpoint zip_with (f : num -> num -> num) (a b : list num) : list num :=
  match a, b with
  | x :: a', y :: b' => f x y :: zip_with f a' b'
  | _, _ => []
  end.

(** A binary operation under numpy's broadcasting rule for shapes (n,) and
    (m,): equal lengths go element by element, a length of one is stretched,
    anything else raises. *)
Definition broadcast (f : num -> num -> num) (a b : list num)
  : result (list num) :=
  if Nat.eqb (length a) (length b) then Ok (zip_with f a b)
  else match a, b with
       | [x], _ => Ok (map (f x) b)
       | _, [y] => Ok (map (fun x => f x y) a)
       | _, _ => Raise ValueError_broadcast
       end.

Definition np_sum (a : list num) : num := fold_left fadd a fzero.

(** [np.mean]: the sum over the count (0/0 for an empty array). *)
Definition np_mean (a : list num) : num :=
  fdiv (np_sum a) (of_int (Z.of_nat (length a))).

Definition dot (r w : list num) : num := np_sum (zip_with fmul r w).

(** [np.dot(X, w)] for a 2-D [X] and a 1-D [w]. *)
Definition np_dot (X : matrix num) (w : list num) : result (list num) :=
  if Nat.eqb (ncols X) (length w) then Ok (map (fun r => dot r w) (rows X))
  else Raise ValueError_not_aligned.

Definition column (X : matrix num) (j : nat) : list num :=
  map (fun r => nth j r fzero) (rows X).

(** [X.T] *)
Definition transpose (X : matrix num) : matrix num :=
  {| rows := map (column X) (seq 0 (ncols X)); ncols := nrows X |}.

(** *** [sigmoid] (line 68) *)

Definition sigmoid (z : num) : num := fdiv fone (fadd fone (fexp (fopp z))).

(** [Z = np.dot(X, weights) + bias; sigmoid(Z)] (lines 106-107, 117-118,
    169-170). *)
Definition forward (X : matrix num) (w : list num) (b : num)
  : result (list num) :=
  Z <- np_dot X w ;;
  Ok (map sigmoid (map (fun z => fadd z b) Z)).

(** Lines 108-109 and 119-120: the mean of
    [-(y * log(y_pred) + (1 - y) * log(1 - y_pred))]. *)
Definition mean_log_loss (y y_pred : list num) : result num :=
  l <- broadcast fmul y (map flog y_pred) ;;
  r <- broadcast fmul (map (fsub fone) y) (map flog (map (fsub fone) y_pred)) ;;
  s <- broadcast fadd l r ;;
  Ok (np_mean (map fopp s)).

(** Lines 117-120: the validation loss at the parameters [w], [b]. *)
Definition validation_loss (X_val : matrix num) (y_val w : list num) (b : num)
  : result num :=
  y_pred_val <- forward X_val w b ;;
  mean_log_loss y_val y_pred_val.

(** *** [fit] (lines 70-153) *)

(** The variables of the loop.  [updates] is a ghost counter of the
    executions of lines 140-141. *)
Record loop_state : Type := {
  st_weights : list num;
  st_bias : num;
  train_losses : list num;
  val_losses : option (list num);
  best_loss : num;
  no_improvement_count : Z;
  stdout : list (line num);
  updates : nat
}.

(** Python's truth value of [patience and no_improvement_count >= patience]
    (line 132): [None] and [0] are false. *)
Definition stop_now (patience : option Z) (count : Z) : bool :=
  match patience with
  | None => false
  | Some p => negb (p =? 0)%Z && (p <=? count)%Z
  end.

Definition reporting (print_loss : bool) (i : nat) : bool :=
  print_loss && Nat.eqb (i mod 100) 0.

Section Fit.

Variable self : LogisticRegression num.
Variables (X_train : matrix num) (y_train : list num).
Variables (X_val : option (matrix num)) (y_val : option (list num)).
Variable patience_arg : option Z.
Variables (print_loss plot_loss : bool).

(** Lines 111-113. *)
Definition report_training (i : nat) (loss : num) (st : loop_state)
  : loop_state :=
  if reporting print_loss i then
    {| st_weights := st_weights st; st_bias := st_bias st;
       train_losses := train_losses st ++ [loss];
       val_losses := val_losses st;
       best_loss := best_loss st;
       no_improvement_count := no_improvement_count st;
       stdout := stdout st ++ [Loss_after_iteration i loss];
       updates := updates st |}
  else st.

(** Lines 121-129: the validation trace and the improvement bookkeeping. *)
Definition record_validation (i : nat) (val_loss : num) (st : loop_state)
  : loop_state :=
  let improved := fltb val_loss (best_loss st) in
  {| st_weights := st_weights st; st_bias := st_bias st;
     train_losses := train_losses st;
     val_losses :=
       if reporting print_loss i
       then option_map (fun l => l ++ [val_loss]) (val_losses st)
       else val_losses st;
     best_loss := if improved then val_loss else best_loss st;
     no_improvement_count :=
       if improved then 0%Z else (no_improvement_count st + 1)%Z;
     stdout := stdout st;
     updates := updates st |}.

(** Lines 132-134. *)
Definition early_stopping (i : nat) (st : loop_state)
  : loop_state * control :=
  if stop_now patience_arg (no_improvement_count st) then
    ({| st_weights := st_weights st; st_bias := st_bias st;
        train_losses := train_losses st;
        val_losses := val_losses st;
        best_loss := best_loss st;
        no_improvement_count := no_improvement_count st;
        stdout := stdout st ++ [Stopped_early_at_iteration (i + 1)];
        updates := updates st |}, Break)
  else (st, Continue).

(** Lines 116-134. *)
Definition validation (i : nat) (st : loop_state)
  : result (loop_state * control) :=
  match X_val, y_val with
  | Some Xv, Some yv =>
      val_loss <- validation_loss Xv yv (st_weights st) (st_bias st) ;;
      Ok (early_stopping i (record_validation i val_loss st))
  | _, _ => Ok (st, Continue)
  end.

(** Lines 137-141. *)
Definition gradient_descent (y_pred : list num) (st : loop_state)
  : result loop_state :=
  let num_samples := nrows X_train in
  if Nat.eqb num_samples 0 then Raise ZeroDivisionError else
  let inv_n := fdiv fone (of_int (Z.of_nat num_samples)) in
  d <- broadcast fsub y_pred y_train ;;
  g <- np_dot (transpose X_train) d ;;
  let dw := map (fmul inv_n) g in
  d' <- broadcast fsub y_pred y_train ;;
  let db := fmul inv_n (np_sum d') in
  Ok {| st_weights :=
          zip_with fsub (st_weights st) (map (fmul (learning_rate self)) dw);
        st_bias := fsub (st_bias st) (fmul (learning_rate self) db);
        train_losses := train_losses st;
        val_losses := val_losses st;
        best_loss := best_loss st;
        no_improvement_count := no_improvement_count st;
        stdout := stdout st;
        updates := S (updates st) |}.

(** The loop body, lines 106-141. *)
Definition fit_iteration (i : nat) (st : loop_state)
  : result (loop_state * control) :=
  y_pred <- forward X_train (st_weights st) (st_bias st) ;;
  loss <- mean_log_loss y_train y_pred ;;
  sc <- validation i (report_training i loss st) ;;
  match sc with
  | (st', Break) => Ok (st', Break)
  | (st', Continue) =>
      st'' <- gradient_descent y_pred st' ;;
      Ok (st'', Continue)
  end.

(** Lines 95-103. *)
Definition initial_state : loop_state :=
  {| st_weights := repeat fzero (ncols X_train);
     st_bias := fzero;
     train_losses := [];
     val_losses := match X_val, y_val with
                   | Some _, Some _ => Some []
                   | _, _ => None
                   end;
     best_loss := finf;
     no_improvement_count := 0%Z;
     stdout := [];
     updates := 0 |}.

(** What a completed call of [fit] leaves behind: the instance with its new
    parameters, the printed lines, the figure shown, and (ghost) the number
    of parameter updates and the loop index of the [break]. *)
Record fit_result : Type := {
  model : LogisticRegression num;
  printed : list (line num);
  shown : option (figure num);
  iterations : nat;
  stopped_at : option nat
}.

(** Lines 143-153. *)
Definition plot (st : loop_state) : option (figure num) :=
  if plot_loss then
    Some match X_val, y_val with
         | Some _, Some _ =>
             {| training_curve := train_losses st;
                validation_curve := val_losses st;
                title := "Training and Validation Loss"%string |}
         | _, _ =>
             {| training_curve := train_losses st;
                validation_curve := None;
                title := "Training Loss"%string |}
         end
  else None.

(** [fit].  A raised exception is returned without the partly trained
    instance. *)
Definition fit : result fit_result :=
  r <- for_range fit_iteration 0 (Z.to_nat (max_iteration self))
         initial_state ;;
  let (st, stopped) := r in
  Ok {| model := {| weights := Some (st_weights st);
                    bias := Some (st_bias st);
                    threshold := threshold self;
                    learning_rate := learning_rate self;
                    max_iteration := max_iteration self;
                    patience := patience self |};
        printed := stdout st;
        shown := plot st;
        iterations := updates st;
        stopped_at := stopped |}.

End Fit.

(** *** [predict] (lines 155-172) *)

(** Lines 169-170: the predicted probabilities. *)
Definition predict_proba (self : LogisticRegression num) (X_test : matrix num)
  : result (list num) :=
  match weights self, bias self with
  | Some w, Some b => forward X_test w b
  | _, _ => Raise TypeError_none
  end.

(** Line 171: [1 if i > self.threshold else 0]. *)
Definition classify (self : LogisticRegression num) (p : num) : Z :=
  if fltb (threshold self) p then 1%Z else 0%Z.

Definition predict (self : LogisticRegression num) (X_test : matrix num)
  : result (list Z) :=
  y_pred <- predict_proba self X_test ;;
  Ok (map (classify self) y_pred).

(** [__init__] (lines 45-51). *)
Definition init (learning_rate0 : num) (max_iteration0 : Z)
    (patience0 : option Z) (threshold0 : num) : LogisticRegression num :=
  {| weights := None; bias := None; threshold := threshold0;
     learning_rate := learning_rate0; max_iteration := max_iteration0;
     patience := patience0 |}.

End Program.

(** ** The training step of the specification *)

(** Section 4.2 of the specification, steps 1, 2, 7 and 8, written entry by
    entry: the scores [Z = X . weights + bias], the probabilities
    [sigmoid(Z)], the gradients [dw = (1/N) Xt (y_pred - y)] and
    [db = (1/N) sum(y_pred - y)], and the update.  Sums run from the first
    index to the last. *)
Section Specification.

Context {num : Type} {ops : FloatOps num}.

Definition big_sum (n : nat) (f : nat -> num) : num :=
  fold_left (fun acc k => fadd acc (f k)) (seq 0 n) fzero.

Variables (X : matrix num) (y : list num) (rate : num).

Definition entry (i j : nat) : num := nth j (nth i (rows X) []) fzero.

Definition label (i : nat) : num := nth i y fzero.

Definition score (w : list num) (b : num) (i : nat) : num :=
  fadd (big_sum (ncols X) (fun j => fmul (entry i j) (nth j w fzero))) b.

Definition probability (w : list num) (b : num) (i : nat) : num :=
  sigmoid (score w b i).

Definition one_over_N : num := fdiv fone (of_int (Z.of_nat (nrows X))).

Definition spec_dw (w : list num) (b : num) (j : nat) : num :=
  fmul one_over_N
    (big_sum (nrows X)
       (fun i => fmul (entry i j) (fsub (probability w b i) (label i)))).

Definition spec_db (w : list num) (b : num) : num :=
  fmul one_over_N
    (big_sum (nrows X) (fun i => fsub (probability w b i) (label i))).

Definition gd_step (p : list num * num) : list num * num :=
  let (w, b) := p in
  (map (fun j => fsub (nth j w fzero) (fmul rate (spec_dw w b j)))
     (seq 0 (ncols X)),
   fsub b (fmul rate (spec_db w b))).

(** The parameters after [k] updates from the all-zero start. *)
Fixpoint params_after (k : nat) : list num * num :=
  match k with
  | O => (repeat fzero (ncols X), fzero)
  | S k' => gd_step (params_after k')
  end.

End Specification.

(** The early-stopping bookkeeping of step 6 on a sequence [v] of validation
    losses: the best loss and the non-improvement counter after the checks
    of iterations [0 .. k-1]. *)
Fixpoint monitor {num : Type} {ops : FloatOps num} (v : nat -> num) (k : nat)
  : num * Z :=
  match k with
  | O => (finf, 0%Z)
  | S k' =>
      let (best, count) := monitor v k' in
      if fltb (v k') best then (v k', 0%Z) else (best, (count + 1)%Z)
  end.

(** The counter right after the check of iteration [k]. *)
Definition counter_at {num : Type} {ops : FloatOps num} (v : nat -> num)
    (k : nat) : Z :=
  snd (monitor v (S k)).

(** ** Exact arithmetic: the reals with the IEEE special values *)

(** [float64] without rounding and without overflow: a real number, an
    infinity or NaN, with the IEEE rules for the special values (signed
    zeros apart). *)
Inductive xreal : Type :=
| Fin (r : R)
| PInf
| NInf
| NaN.

Module X.

Local Open Scope R_scope.

Definition opp (x : xreal) : xreal :=
  match x with
  | Fin r => Fin (- r)
  | PInf => NInf
  | NInf => PInf
  | NaN => NaN
  end.

Definition add (x y : xreal) : xreal :=
  match x, y with
  | Fin a, Fin b => Fin (a + b)
  | NaN, _ | _, NaN => NaN
  | PInf, NInf | NInf, PInf => NaN
  | PInf, _ | _, PInf => PInf
  | NInf, _ | _, NInf => NInf
  end.

Definition sub (x y : xreal) : xreal := add x (opp y).

(** The product of the nonzero real or infinity of sign [r] with [i]. *)
Definition scaled (r : R) (i : xreal) : xreal :=
  if Req_dec_T r 0 then NaN
  else if Rlt_dec 0 r then i else opp i.

Definition mul (x y : xreal) : xreal :=
  match x, y with
  | Fin a, Fin b => Fin (a * b)
  | NaN, _ | _, NaN => NaN
  | Fin a, i | i, Fin a => scaled a i
  | PInf, PInf | NInf, NInf => PInf
  | PInf, NInf | NInf, PInf => NInf
  end.

Definition div (x y : xreal) : xreal :=
  match x, y with
  | Fin a, Fin b => if Req_dec_T b 0 then scaled a PInf else Fin (a / b)
  | NaN, _ | _, NaN => NaN
  | Fin _, _ => Fin 0
  | i, Fin b => if Req_dec_T b 0 then i else scaled b i
  | _, _ => NaN
  end.

Definition exp (x : xreal) : xreal :=
  match x with
  | Fin r => Fin (Rtrigo_def.exp r)
  | PInf => PInf
  | NInf => Fin 0
  | NaN => NaN
  end.

Definition log (x : xreal) : xreal :=
  match x with
  | Fin r => if Rlt_dec 0 r then Fin (ln r)
             else if Req_dec_T r 0 then NInf else NaN
  | PInf => PInf
  | _ => NaN
  end.

Definition ltb (x y : xreal) : bool :=
  match x, y with
  | Fin a, Fin b => if Rlt_dec a b then true else false
  | NaN, _ | _, NaN => false
  | NInf, NInf | PInf, _ | _, NInf => false
  | _, _ => true
  end.

End X.

#[export] Instance xreal_ops : FloatOps xreal := {|
  fzero := Fin 0;
  fone := Fin 1;
  finf := PInf;
  fadd := X.add;
  fsub := X.sub;
  fmul := X.mul;
  fdiv := X.div;
  fopp := X.opp;
  fexp := X.exp;
  flog := X.log;
  fltb := X.ltb;
  of_int := fun n => Fin (IZR n)
|}.

(** The logistic function on the reals. *)
Definition logistic (z : R) : R := (1 / (1 + exp (- z)))%R.

(** ** Sample inputs *)

Module Sample.

Local Open Scope R_scope.

(** Two samples with the same feature and different labels: the gradient
    vanishes at the all-zero start, so training stays there. *)
Definition X2 : matrix xreal := {| rows := [[Fin 0]; [Fin 0]]; ncols := 1 |}.
Definition y2 : list xreal := [Fin 0; Fin 1].

(** One validation sample. *)
Definition Xv1 : matrix xreal := {| rows := [[Fin 0]]; ncols := 1 |}.
Definition yv1 : list xreal := [Fin 0].

(** [LogisticRegression(learning_rate=1/10, max_iteration=3, patience=q)] *)
Definition clf (q : option Z) : LogisticRegression xreal :=
  init (Fin (1 / 10)) 3 q (Fin (1 / 2)).

(** The validation loss of [Xv1], [yv1] at the all-zero parameters. *)
Definition loss0 : xreal := Fin (ln 2).

End Sample.

(** * Properties *)

(** ** Lists, sums and shapes *)

Section Arrays.

Context {num : Type} {ops : FloatOps num}.

Lemma zip_with_length (f : num -> num -> num) (a b : list num) :
  length (zip_with f a b) = Nat.min (length a) (length b).
Proof.
  revert b; induction a as [|x a IH]; intros [|y b]; simpl; auto.
Qed.

Lemma zip_with_map {A : Type} (f : num -> num -> num) (g h : A -> num)
    (l : list A) :
  zip_with f (map g l) (map h l) = map (fun x => f (g x) (h x)) l.
Proof.
  induction l as [|x l IH]; simpl; [reflexivity|now rewrite IH].
Qed.

Lemma map_seq_nth {A : Type} (d : A) (l : list A) :
  map (fun i => nth i l d) (seq 0 (length l)) = l.
Proof.
  induction l as [|x l IH]; simpl; [reflexivity|].
  f_equal. rewrite <- seq_shift, map_map. exact IH.
Qed.

Lemma fold_left_fadd_map {A : Type} (g : A -> num) (l : list A) (acc : num) :
  fold_left fadd (map g l) acc = fold_left (fun s k => fadd s (g k)) l acc.
Proof.
  revert acc; induction l as [|x l IH]; intros acc; simpl; auto.
Qed.

Lemma np_sum_map_seq (n : nat) (f : nat -> num) :
  np_sum (map f (seq 0 n)) = big_sum n f.
Proof. apply fold_left_fadd_map. Qed.

Lemma big_sum_ext (n : nat) (f g : nat -> num) :
  (forall k, k < n -> f k = g k) -> big_sum n f = big_sum n g.
Proof.
  intros H. rewrite <- !np_sum_map_seq. f_equal.
  apply map_ext_in. intros k Hk. apply in_seq in Hk. apply H. lia.
Qed.

Lemma zip_with_seq (f : num -> num -> num) (a b : list num) (n : nat) :
  length a = n -> length b = n ->
  zip_with f a b = map (fun k => f (nth k a fzero) (nth k b fzero)) (seq 0 n).
Proof.
  intros Ha Hb.
  rewrite <- (map_seq_nth fzero a) at 1. rewrite <- (map_seq_nth fzero b) at 1.
  rewrite Ha, Hb. apply zip_with_map.
Qed.

Lemma dot_big_sum (r w : list num) (n : nat) :
  length r = n -> length w = n ->
  dot r w = big_sum n (fun j => fmul (nth j r fzero) (nth j w fzero)).
Proof.
  intros Hr Hw. unfold dot. rewrite (zip_with_seq fmul r w Hr Hw).
  apply np_sum_map_seq.
Qed.

Lemma broadcast_same (f : num -> num -> num) (a b : list num) :
  length a = length b -> broadcast f a b = Ok (zip_with f a b).
Proof.
  intros H. unfold broadcast. now rewrite H, Nat.eqb_refl.
Qed.

(** Lengths other than equal or one cannot be broadcast. *)
Lemma broadcast_mismatch (f : num -> num -> num) (a b : list num) :
  length a <> length b -> length a <> 1 -> length b <> 1 ->
  broadcast f a b = Raise ValueError_broadcast.
Proof.
  intros Hab Ha Hb. unfold broadcast.
  apply Nat.eqb_neq in Hab. rewrite Hab.
  destruct a as [|x [|x' a]]; destruct b as [|y [|y' b]];
    simpl in *; try reflexivity; congruence.
Qed.

(** A single element is stretched over the other operand. *)
Lemma broadcast_stretch_right (f : num -> num -> num) (a : list num) (y : num) :
  broadcast f a [y] = Ok (map (fun x => f x y) a).
Proof.
  unfold broadcast. destruct a as [|x [|x' a]]; reflexivity.
Qed.

Lemma broadcast_stretch_left (f : num -> num -> num) (x : num) (b : list num) :
  broadcast f [x] b = Ok (map (f x) b).
Proof.
  unfold broadcast. destruct b as [|y [|y' b]]; reflexivity.
Qed.

Lemma np_dot_aligned (X : matrix num) (w : list num) :
  ncols X = length w ->
  np_dot X w = Ok (map (fun r => dot r w) (rows X)).
Proof.
  intros H. unfold np_dot. now rewrite H, Nat.eqb_refl.
Qed.

Lemma forward_aligned (X : matrix num) (w : list num) (b : num) :
  ncols X = length w ->
  forward X w b =
  Ok (map sigmoid (map (fun z => fadd z b) (map (fun r => dot r w) (rows X)))).
Proof.
  intros H. unfold forward. now rewrite (np_dot_aligned X w H).
Qed.

Lemma forward_length (X : matrix num) (w : list num) (b : num)
    (p : list num) :
  forward X w b = Ok p -> length p = nrows X.
Proof.
  unfold forward, np_dot.
  destruct (Nat.eqb (ncols X) (length w)); simpl; [|discriminate].
  intros [= <-]. now rewrite !length_map.
Qed.

Lemma mean_log_loss_same (y p : list num) :
  length y = length p -> exists l, mean_log_loss y p = Ok l.
Proof.
  intros H. unfold mean_log_loss.
  rewrite broadcast_same by now rewrite length_map.
  simpl. rewrite broadcast_same by now rewrite !length_map.
  simpl. rewrite broadcast_same
    by (rewrite !zip_with_length, !length_map; lia).
  simpl. eauto.
Qed.

End Arrays.

(** ** One iteration against the training step of the specification *)

Section Iteration.

Context {num : Type} {ops : FloatOps num}.

Variable self : LogisticRegression num.
Variables (X : matrix num) (y : list num).
Variables (X_val : option (matrix num)) (y_val : option (list num)).
Variable patience_arg : option Z.
Variable print_loss : bool.

Hypothesis X_rectangular : rectangular X.
Hypothesis y_length : length y = nrows X.

Let rate := learning_rate self.

(** The parameters of a loop state. *)
Definition params (st : @loop_state num) : list num * num :=
  (st_weights st, st_bias st).

Lemma nth_indep_default {A : Type} (l : list A) (i : nat) (d d' : A) :
  d' = d -> nth i l d = nth i l d'.
Proof. now intros ->. Qed.

Lemma row_length (i : nat) :
  i < nrows X -> length (nth i (rows X) []) = ncols X.
Proof.
  intros Hi. unfold rectangular in X_rectangular.
  rewrite Forall_forall in X_rectangular.
  apply X_rectangular, nth_In, Hi.
Qed.

Lemma column_entry (i j : nat) : nth i (column X j) fzero = entry X i j.
Proof.
  unfold column, entry.
  rewrite <- (map_nth (fun r : list num => nth j r fzero) (rows X) [] i).
  apply nth_indep_default. destruct j; reflexivity.
Qed.

(** Lines 106-107 compute the probabilities of the specification. *)
Lemma forward_spec (w : list num) (b : num) :
  length w = ncols X ->
  forward X w b = Ok (map (probability X w b) (seq 0 (nrows X))).
Proof.
  intros Hw. rewrite forward_aligned by congruence. f_equal.
  rewrite !map_map.
  rewrite <- (map_seq_nth [] (rows X)) at 1. rewrite map_map.
  apply map_ext_in. intros i Hi. apply in_seq in Hi.
  unfold probability, score. do 2 f_equal.
  apply dot_big_sum; [apply row_length; lia | exact Hw].
Qed.

(** The state after lines 137-141, by the specification. *)
Definition descend (st : @loop_state num) : @loop_state num :=
  {| st_weights := fst (gd_step X y rate (params st));
     st_bias := snd (gd_step X y rate (params st));
     train_losses := train_losses st;
     val_losses := val_losses st;
     best_loss := best_loss st;
     no_improvement_count := no_improvement_count st;
     stdout := stdout st;
     updates := S (updates st) |}.

Lemma difference_spec (w : list num) (b : num) :
  broadcast fsub (map (probability X w b) (seq 0 (nrows X))) y =
  Ok (map (fun i => fsub (probability X w b i) (label y i))
        (seq 0 (nrows X))).
Proof.
  rewrite broadcast_same by now rewrite length_map, length_seq.
  f_equal.
  rewrite <- (map_seq_nth fzero y) at 1. rewrite y_length.
  apply zip_with_map.
Qed.

(** Lines 137-141 perform the update of the specification. *)
Lemma gradient_descent_spec (st : loop_state) :
  nrows X <> 0 ->
  length (st_weights st) = ncols X ->
  gradient_descent self X y
    (map (probability X (st_weights st) (st_bias st)) (seq 0 (nrows X))) st
  = Ok (descend st).
Proof.
  intros HN Hw. unfold gradient_descent.
  apply Nat.eqb_neq in HN. rewrite HN.
  rewrite difference_spec. simpl.
  rewrite np_dot_aligned
    by (simpl; now rewrite length_map, length_seq).
  simpl. unfold descend, params, gd_step. f_equal. f_equal.
  - rewrite !map_map.
    rewrite <- (map_seq_nth fzero (st_weights st)) at 1. rewrite Hw.
    rewrite zip_with_map. apply map_ext. intros j.
    unfold spec_dw, one_over_N, rate. do 3 f_equal.
    rewrite (@dot_big_sum _ _ _ _ (nrows X));
      [| unfold column; now rewrite length_map
       | now rewrite length_map, length_seq].
    apply big_sum_ext. intros i Hi. rewrite column_entry. f_equal.
    rewrite (nth_indep _ fzero
               (fsub (probability X (st_weights st) (st_bias st) 0)
                  (label y 0)))
      by now rewrite length_map, length_seq.
    rewrite (map_nth (fun i => fsub (probability X (st_weights st)
                                       (st_bias st) i) (label y i))).
    rewrite seq_nth by lia. reflexivity.
  - cbn [snd]. unfold spec_db, one_over_N, rate. do 3 f_equal.
    apply np_sum_map_seq.
Qed.

(** A raised ZeroDivisionError is the only outcome on an empty training
    set once the gradient is reached. *)
Lemma gradient_descent_empty (p : list num) (st : loop_state) :
  nrows X = 0 -> gradient_descent self X y p st = Raise ZeroDivisionError.
Proof.
  intros HN. unfold gradient_descent. now rewrite HN.
Qed.

(** The validation block leaves the parameters and the update count. *)
Lemma validation_params (i : nat) (st st' : loop_state) (c : control) :
  validation X_val y_val patience_arg print_loss i st = Ok (st', c) ->
  params st' = params st /\ updates st' = updates st.
Proof.
  unfold validation.
  destruct X_val as [Xv|]; [destruct y_val as [yv|]|];
    try (intros [= <- <-]; now split).
  destruct (validation_loss Xv yv (st_weights st) (st_bias st)) as [v|e];
    simpl; [|discriminate].
  unfold early_stopping.
  destruct (stop_now patience_arg _); intros [= <- <-]; now split.
Qed.

Lemma report_training_params (i : nat) (loss : num) (st : loop_state) :
  params (report_training print_loss i loss st) = params st /\
  updates (report_training print_loss i loss st) = updates st.
Proof.
  unfold report_training. destruct (reporting print_loss i); now split.
Qed.

(** The loop body at parameters of the right length: the training loss is
    computed, the validation block runs, and unless it breaks the update of
    the specification follows. *)
Lemma fit_iteration_spec (i : nat) (st : loop_state) :
  nrows X <> 0 ->
  length (st_weights st) = ncols X ->
  exists loss,
    fit_iteration self X y X_val y_val patience_arg print_loss i st =
    match validation X_val y_val patience_arg print_loss i
            (report_training print_loss i loss st) with
    | Raise e => Raise e
    | Ok (st', Break) => Ok (st', Break)
    | Ok (st', Continue) => Ok (descend st', Continue)
    end.
Proof.
  intros HN Hw. unfold fit_iteration.
  rewrite forward_spec by exact Hw. simpl.
  destruct (@mean_log_loss_same _ _ y
              (map (probability X (st_weights st) (st_bias st))
                 (seq 0 (nrows X)))) as [loss Hloss].
  { now rewrite length_map, length_seq. }
  exists loss. rewrite Hloss. simpl.
  destruct (validation X_val y_val patience_arg print_loss i
              (report_training print_loss i loss st))
    as [[st' [|]]|e] eqn:Hv; simpl; try reflexivity.
  apply validation_params in Hv. destruct Hv as [Hp _].
  destruct (report_training_params i loss st) as [Hp' _].
  rewrite Hp' in Hp. unfold params in Hp. injection Hp as Hw' Hb'.
  rewrite <- Hw', <- Hb'.
  rewrite gradient_descent_spec by congruence. reflexivity.
Qed.

End Iteration.

(** ** The loop *)

Lemma for_range_ext {S : Type} (f g : nat -> S -> result (S * control)) :
  (forall i st, f i st = g i st) ->
  forall n i st, for_range f i n st = for_range g i n st.
Proof.
  intros H n. induction n as [|n IH]; intros i st; simpl; [reflexivity|].
  rewrite H. destruct (g i st) as [[st' [|]]|e]; auto.
Qed.

Section Loop.

Context {num : Type} {ops : FloatOps num}.

Variable self : LogisticRegression num.
Variables (X : matrix num) (y : list num).
Variables (X_val : option (matrix num)) (y_val : option (list num)).
Variable patience_arg : option Z.
Variable print_loss : bool.

Hypothesis X_rectangular : rectangular X.
Hypothesis y_length : length y = nrows X.
Hypothesis X_nonempty : nrows X <> 0.

Let rate := learning_rate self.
Let body := fit_iteration self X y X_val y_val patience_arg print_loss.
Let after := params_after X y rate.

(** Entering iteration [k], the parameters are those of [k] updates. *)
Definition trained (k : nat) (st : @loop_state num) : Prop :=
  params st = params_after X y (learning_rate self) k /\ updates st = k.

Lemma params_after_length (k : nat) : length (fst (after k)) = ncols X.
Proof.
  unfold after. destruct k as [|k]; simpl.
  - apply repeat_length.
  - destruct (params_after X y rate k) as [w b]. simpl.
    now rewrite length_map, length_seq.
Qed.

Lemma trained_length (k : nat) (st : loop_state) :
  trained k st -> length (st_weights st) = ncols X.
Proof.
  intros [Hp _]. rewrite <- (params_after_length k).
  unfold after, rate. rewrite <- Hp. reflexivity.
Qed.

Lemma trained_descend (k : nat) (st : loop_state) :
  trained k st -> trained (S k) (descend self X y st).
Proof.
  intros [Hp Hu]. split; simpl; [|now rewrite Hu].
  rewrite <- Hp. unfold params. simpl.
  now destruct (gd_step X y (learning_rate self) (st_weights st, st_bias st)).
Qed.

(** One iteration from a trained state: a break leaves the parameters, a
    completed iteration makes one more update. *)
Lemma body_trained (k : nat) (st st' : loop_state) (c : control) :
  trained k st -> body k st = Ok (st', c) ->
  match c with
  | Break => trained k st'
  | Continue => trained (S k) st'
  end.
Proof.
  intros Ht Hb. unfold body in Hb.
  destruct (fit_iteration_spec self y X_val y_val patience_arg print_loss
              X_rectangular y_length k st X_nonempty (trained_length Ht))
    as [loss Hs].
  rewrite Hs in Hb. clear Hs.
  destruct (validation X_val y_val patience_arg print_loss k
              (report_training print_loss k loss st))
    as [[st1 c1]|e] eqn:Hv; [|discriminate].
  apply validation_params in Hv. destruct Hv as [Hp Hu].
  destruct (report_training_params print_loss k loss st) as [Hp' Hu'].
  assert (Ht1 : trained k st1).
  { destruct Ht as [Ha Hb']. split; congruence. }
  destruct c1; injection Hb as <- <-.
  - now apply trained_descend.
  - exact Ht1.
Qed.

(** However the loop ends, the parameters are those of as many updates as
    iterations were completed. *)
Lemma loop_trained (n k : nat) (st st' : loop_state) (stopped : option nat) :
  trained k st ->
  for_range body k n st = Ok (st', stopped) ->
  match stopped with
  | Some i => k <= i < k + n /\ trained i st'
  | None => trained (k + n) st'
  end.
Proof.
  revert k st. induction n as [|n IH]; intros k st Ht; simpl.
  - intros [= <- <-]. now rewrite Nat.add_0_r.
  - destruct (body k st) as [[st1 c]|e] eqn:Hb; [|discriminate].
    pose proof (body_trained Ht Hb) as Ht1.
    destruct c.
    + intros H. apply IH in H; [|exact Ht1].
      destruct stopped as [i|].
      * destruct H as [Hi H]. split; [lia|exact H].
      * now replace (k + S n) with (S k + n) by lia.
    + intros [= <- <-]. split; [lia|exact Ht1].
Qed.

Lemma initial_trained : trained 0 (initial_state X X_val y_val).
Proof. split; reflexivity. Qed.

(** *** Without validation data *)

Section Unmonitored.

Hypothesis no_validation : X_val = None \/ y_val = None.

Lemma validation_absent (i : nat) (st : loop_state) :
  validation X_val y_val patience_arg print_loss i st = Ok (st, Continue).
Proof.
  unfold validation.
  destruct no_validation as [-> | ->]; [reflexivity|].
  now destruct X_val.
Qed.

Lemma body_unmonitored (k : nat) (st : loop_state) :
  trained k st ->
  exists st', body k st = Ok (st', Continue) /\ trained (S k) st'.
Proof.
  intros Ht. unfold body.
  destruct (fit_iteration_spec self y X_val y_val patience_arg print_loss
              X_rectangular y_length k st X_nonempty (trained_length Ht))
    as [loss Hs].
  rewrite validation_absent in Hs.
  eexists. split; [exact Hs|].
  apply trained_descend.
  destruct (report_training_params print_loss k loss st) as [Hp Hu].
  destruct Ht as [Ha Hb]. split; congruence.
Qed.

Lemma loop_unmonitored (n k : nat) (st : loop_state) :
  trained k st ->
  exists st', for_range body k n st = Ok (st', None) /\ trained (k + n) st'.
Proof.
  revert k st. induction n as [|n IH]; intros k st Ht; simpl.
  - exists st. now rewrite Nat.add_0_r.
  - destruct (body_unmonitored Ht) as [st1 [Hb Ht1]]. rewrite Hb.
    destruct (IH _ _ Ht1) as [st' [Hl Ht']].
    exists st'. split; [exact Hl|].
    now replace (k + S n) with (S k + n) by lia.
Qed.

End Unmonitored.

(** *** With validation data *)

Section Monitored.

Variables (Xv : matrix num) (yv : list num).
Hypothesis X_val_given : X_val = Some Xv.
Hypothesis y_val_given : y_val = Some yv.

(** [v k] is the validation loss at the parameters of [k] updates, for the
    iterations up to [last]. *)
Variable v : nat -> num.
Variable last : nat.
Hypothesis v_validation_loss :
  forall k, k <= last ->
    validation_loss Xv yv (fst (after k)) (snd (after k)) = Ok (v k).

(** Entering iteration [k], the bookkeeping is that of [monitor]. *)
Definition monitored (k : nat) (st : @loop_state num) : Prop :=
  (best_loss st, no_improvement_count st) = monitor v k.

Lemma monitor_step (k : nat) (st : loop_state) :
  monitored k st ->
  forall i, monitored (S k) (record_validation print_loss i (v k) st).
Proof.
  unfold monitored. intros H i. simpl. rewrite <- H.
  unfold record_validation. simpl.
  now destruct (fltb (v k) (best_loss st)).
Qed.

Lemma counter_step (k : nat) (st : loop_state) :
  monitored k st ->
  forall i, no_improvement_count (record_validation print_loss i (v k) st)
            = counter_at v k.
Proof.
  intros H i. pose proof (monitor_step H i) as Hm.
  unfold monitored in Hm. unfold counter_at. now rewrite <- Hm.
Qed.

(** One monitored iteration: the loop is left exactly when the counter has
    reached the patience. *)
Lemma body_monitored (k : nat) (st : loop_state) :
  k <= last -> trained k st -> monitored k st ->
  if stop_now patience_arg (counter_at v k)
  then exists st', body k st = Ok (st', Break) /\ trained k st'
  else exists st', body k st = Ok (st', Continue) /\
                   trained (S k) st' /\ monitored (S k) st'.
Proof.
  intros Hk Ht Hm. unfold body.
  destruct (fit_iteration_spec self y X_val y_val patience_arg print_loss
              X_rectangular y_length k st X_nonempty (trained_length Ht))
    as [loss Hs].
  rewrite Hs. clear Hs.
  destruct (report_training_params print_loss k loss st) as [Hp Hu].
  set (st0 := report_training print_loss k loss st) in *.
  assert (Ht0 : trained k st0).
  { destruct Ht as [Ha Hb]. split; congruence. }
  assert (Hm0 : monitored k st0).
  { unfold monitored, st0, report_training.
    destruct (reporting print_loss k); exact Hm. }
  unfold validation. rewrite X_val_given, y_val_given.
  assert (Hv : validation_loss Xv yv (st_weights st0) (st_bias st0)
               = Ok (v k)).
  { destruct Ht0 as [Ha _]. unfold params in Ha.
    rewrite <- (v_validation_loss Hk). unfold after, rate.
    rewrite <- Ha. reflexivity. }
  rewrite Hv. simpl. unfold early_stopping.
  rewrite (counter_step Hm0 k).
  destruct (stop_now patience_arg (counter_at v k)).
  - eexists. split; [reflexivity|].
    destruct Ht0 as [Ha Hb]. split; [exact Ha|exact Hb].
  - eexists. split; [reflexivity|]. split.
    + apply trained_descend. destruct Ht0 as [Ha Hb]. split; assumption.
    + pose proof (monitor_step Hm0 k) as Hm1. exact Hm1.
Qed.

(** The loop is left at the first iteration whose counter has reached the
    patience. *)
Lemma loop_stops_at (n m k : nat) (st : loop_state) :
  trained m st -> monitored m st ->
  m <= k -> k < m + n -> k <= last ->
  (forall i, m <= i < k -> stop_now patience_arg (counter_at v i) = false) ->
  stop_now patience_arg (counter_at v k) = true ->
  exists st', for_range body m n st = Ok (st', Some k) /\ trained k st'.
Proof.
  revert m st. induction n as [|n IH]; intros m st Ht Hm Hmk Hkn Hkl Hno Hstop;
    [lia|]. simpl.
  pose proof (@body_monitored m st ltac:(lia) Ht Hm) as Hb.
  destruct (Nat.eq_dec m k) as [->|Hne].
  - rewrite Hstop in Hb. destruct Hb as [st' [Hb Ht']].
    rewrite Hb. now exists st'.
  - rewrite Hno in Hb by lia. destruct Hb as [st1 [Hb [Ht1 Hm1]]].
    rewrite Hb. apply IH; auto; try lia.
    intros i Hi. apply Hno. lia.
Qed.

(** The loop runs on while no counter reaches the patience. *)
Lemma loop_runs_on (n m : nat) (st : loop_state) :
  trained m st -> monitored m st ->
  (n = 0 \/ m + n <= S last) ->
  (forall i, m <= i < m + n ->
     stop_now patience_arg (counter_at v i) = false) ->
  exists st', for_range body m n st = Ok (st', None) /\ trained (m + n) st'.
Proof.
  revert m st. induction n as [|n IH]; intros m st Ht Hm Hlast Hno; simpl.
  - exists st. now rewrite Nat.add_0_r.
  - pose proof (@body_monitored m st ltac:(lia) Ht Hm) as Hb.
    rewrite Hno in Hb by lia. destruct Hb as [st1 [Hb [Ht1 Hm1]]].
    rewrite Hb.
    destruct (IH (S m) st1 Ht1 Hm1) as [st' [Hl Ht']].
    + right. lia.
    + intros i Hi. apply Hno. lia.
    + exists st'. split; [exact Hl|].
      now replace (m + S n) with (S m + n) by lia.
Qed.

End Monitored.

End Loop.

(** ** Bookkeeping on a sequence of validation losses *)

Section Counter.

Context {num : Type} {ops : FloatOps num}.
Variable v : nat -> num.





End Counter.

(** ** [fit] from its loop *)

Section FitResult.

Context {num : Type} {ops : FloatOps num}.

Variable self : LogisticRegression num.
Variables (X : matrix num) (y : list num).
Variables (X_val : option (matrix num)) (y_val : option (list num)).
Variable patience_arg : option Z.
Variables (print_loss plot_loss : bool).

Lemma fit_of_loop (st : loop_state) (stopped : option nat) :
  for_range (fit_iteration self X y X_val y_val patience_arg print_loss) 0
    (Z.to_nat (max_iteration self)) (initial_state X X_val y_val)
  = Ok (st, stopped) ->
  exists r,
    fit self X y X_val y_val patience_arg print_loss plot_loss = Ok r /\
    weights (model r) = Some (st_weights st) /\
    bias (model r) = Some (st_bias st) /\
    iterations r = updates st /\
    stopped_at r = stopped.
Proof.
  intros H. unfold fit. rewrite H. simpl.
  eexists. split; [reflexivity|]. simpl. auto.
Qed.

Lemma loop_of_fit (r : fit_result) :
  fit self X y X_val y_val patience_arg print_loss plot_loss = Ok r ->
  exists st,
    for_range (fit_iteration self X y X_val y_val patience_arg print_loss) 0
      (Z.to_nat (max_iteration self)) (initial_state X X_val y_val)
    = Ok (st, stopped_at r) /\
    weights (model r) = Some (st_weights st) /\
    bias (model r) = Some (st_bias st) /\
    iterations r = updates st /\
    shown r = plot X_val y_val plot_loss st.
Proof.
  unfold fit.
  destruct (for_range _ 0 _ _) as [[st stopped]|e]; simpl; [|discriminate].
  intros [= <-]. exists st. simpl. auto.
Qed.

(** Whatever the shapes: an iteration either completes with one update or
    breaks in the validation block, with both validation arrays present, the
    stop test true, and no update. *)
Lemma fit_iteration_outcome (i : nat) (st st' : loop_state) (c : control) :
  fit_iteration self X y X_val y_val patience_arg print_loss i st
  = Ok (st', c) ->
  match c with
  | Continue => updates st' = S (updates st)
  | Break =>
      params st' = params st /\ updates st' = updates st /\
      stop_now patience_arg (no_improvement_count st') = true /\
      exists Xv yv, X_val = Some Xv /\ y_val = Some yv
  end.
Proof.
  unfold fit_iteration.
  destruct (forward X (st_weights st) (st_bias st)) as [p|e]; simpl;
    [|discriminate].
  destruct (mean_log_loss y p) as [loss|e]; simpl; [|discriminate].
  destruct (report_training_params print_loss i loss st) as [Hp Hu].
  set (st0 := report_training print_loss i loss st) in *.
  destruct (validation X_val y_val patience_arg print_loss i st0)
    as [[st1 c1]|e] eqn:Hv; simpl; [|discriminate].
  destruct c1.
  - unfold gradient_descent.
    destruct (Nat.eqb (nrows X) 0); [discriminate|].
    destruct (broadcast fsub p y) as [d|e]; simpl; [|discriminate].
    destruct (np_dot (transpose X) d) as [g|e]; simpl; [|discriminate].
    apply validation_params in Hv. destruct Hv as [_ Hu1].
    intros [= <- <-]. simpl. congruence.
  - intros [= <- <-].
    pose proof (validation_params _ _ _ _ _ _ Hv) as [Hp1 Hu1].
    split; [congruence|]. split; [congruence|].
    unfold validation in Hv.
    destruct X_val as [Xv|]; [|discriminate].
    destruct y_val as [yv|]; [|discriminate].
    destruct (validation_loss Xv yv (st_weights st0) (st_bias st0))
      as [val|e]; simpl in Hv; [|discriminate].
    unfold early_stopping in Hv.
    destruct (stop_now patience_arg
                (no_improvement_count (record_validation print_loss i val st0)))
      eqn:Hs; injection Hv as <-; [|discriminate].
    simpl. split; [exact Hs|]. eauto.
Qed.

(** A loop that cannot break runs all its iterations. *)
Lemma loop_without_break (n k : nat) (st st' : loop_state)
    (stopped : option nat) :
  (X_val = None \/ y_val = None \/
   forall count, stop_now patience_arg count = false) ->
  for_range (fit_iteration self X y X_val y_val patience_arg print_loss)
    k n st = Ok (st', stopped) ->
  stopped = None /\ updates st' = updates st + n.
Proof.
  intros Hno. revert k st. induction n as [|n IH]; intros k st; simpl.
  - intros [= <- <-]. split; [reflexivity|lia].
  - destruct (fit_iteration self X y X_val y_val patience_arg print_loss k st)
      as [[st1 c]|e] eqn:Hb; [|discriminate].
    apply fit_iteration_outcome in Hb. destruct c.
    + intros H. apply IH in H. destruct H as [-> H]. split; [reflexivity|lia].
    + exfalso. destruct Hb as [_ [_ [Hs [Xv [yv [HX Hy]]]]]].
      destruct Hno as [E|[E|E]]; congruence.
Qed.

End FitResult.

(** *** [fit] under monitoring *)

Section MonitoredFit.

Context {num : Type} {ops : FloatOps num}.

Variable self : LogisticRegression num.
Variables (X : matrix num) (y : list num).
Variables (Xv : matrix num) (yv : list num).
Variable patience_arg : option Z.
Variables (print_loss plot_loss : bool).

Hypothesis X_rectangular : rectangular X.
Hypothesis y_length : length y = nrows X.
Hypothesis X_nonempty : nrows X <> 0.

Variable v : nat -> num.

Let theta := params_after X y (learning_rate self).

(** [fit] leaves its loop at the first iteration [k] whose counter passes
    the stop test of line 132. *)
Lemma fit_stops_at_first (k : nat) :
  k < Z.to_nat (max_iteration self) ->
  (forall i, i <= k ->
     validation_loss Xv yv (fst (theta i)) (snd (theta i)) = Ok (v i)) ->
  (forall i, i < k -> stop_now patience_arg (counter_at v i) = false) ->
  stop_now patience_arg (counter_at v k) = true ->
  exists r,
    fit self X y (Some Xv) (Some yv) patience_arg print_loss plot_loss
      = Ok r /\
    stopped_at r = Some k /\ iterations r = k /\
    weights (model r) = Some (fst (theta k)) /\
    bias (model r) = Some (snd (theta k)).
Proof.
  intros Hk Hv Hno Hstop.
  destruct (loop_stops_at patience_arg print_loss X_rectangular y_length
              X_nonempty (X_val := Some Xv) (y_val := Some yv)
              eq_refl eq_refl (v := v) (last := k) Hv
              (Z.to_nat (max_iteration self)) (m := 0) (k := k)
              (st := initial_state X (Some Xv) (Some yv)))
    as [st [Hl [Hpar Hu]]]; try lia.
  { apply initial_trained. }
  { reflexivity. }
  { intros i Hi. apply Hno. lia. }
  { exact Hstop. }
  destruct (fit_of_loop _ _ _ _ _ _ _ plot_loss Hl)
    as [r [Hr [Hw [Hb [Hi Hs]]]]].
  exists r. unfold theta. rewrite <- Hpar. simpl.
  repeat split; congruence.
Qed.

(** [fit] runs all its iterations when no counter passes the stop test. *)
Lemma fit_runs_on :
  (forall i, i < Z.to_nat (max_iteration self) ->
     validation_loss Xv yv (fst (theta i)) (snd (theta i)) = Ok (v i)) ->
  (forall i, i < Z.to_nat (max_iteration self) ->
     stop_now patience_arg (counter_at v i) = false) ->
  exists r,
    fit self X y (Some Xv) (Some yv) patience_arg print_loss plot_loss
      = Ok r /\
    stopped_at r = None /\
    iterations r = Z.to_nat (max_iteration self).
Proof.
  intros Hv Hno.
  destruct (Z.to_nat (max_iteration self)) as [|n] eqn:En.
  { unfold fit. rewrite En. simpl. eexists. repeat split. }
  destruct (loop_runs_on patience_arg print_loss X_rectangular y_length
              X_nonempty (X_val := Some Xv) (y_val := Some yv)
              eq_refl eq_refl (v := v) (last := n)
              ltac:(intros k Hk; apply Hv; lia)
              (n := S n) (m := 0)
              (st := initial_state X (Some Xv) (Some yv)))
    as [st [Hl [Hpar Hu]]].
  { apply initial_trained. }
  { reflexivity. }
  { lia. }
  { intros i Hi. apply Hno. lia. }
  rewrite <- En in Hl.
  destruct (fit_of_loop _ _ _ _ _ _ _ plot_loss Hl)
    as [r [Hr [Hw [Hb [Hi Hs]]]]].
  exists r. repeat split; try congruence.
  rewrite Hi, Hu. reflexivity.
Qed.

End MonitoredFit.

(** * The claims *)

Section Claims.

Context {num : Type} {ops : FloatOps num}.

(** C4.  In every iteration of [fit] that performs a parameter update, the
    update is one batch gradient-descent step: with
    [y_pred = sigmoid(X_train . weights + bias)], the new weights are
    [weights - learning_rate * (1/N) * X_train^T (y_pred - y_train)] and the
    new bias is [bias - learning_rate * (1/N) * sum(y_pred - y_train)], as
    [gd_step] writes them entry by entry; and an iteration without
    validation data always performs it.  (For rectangular [X_train] and [N]
    labels, the shape contract of the data model.) *)
Theorem update_is_gradient_step
    (self : LogisticRegression num) (X_train : matrix num)
    (y_train : list num) (X_val : option (matrix num))
    (y_val : option (list num)) (patience_arg : option Z)
    (print_loss : bool) (i : nat) (st : loop_state) :
  rectangular X_train ->
  length y_train = nrows X_train ->
  (forall st',
      fit_iteration self X_train y_train X_val y_val patience_arg print_loss
        i st = Ok (st', Continue) ->
      (st_weights st', st_bias st') =
        gd_step X_train y_train (learning_rate self)
          (st_weights st, st_bias st) /\
      updates st' = S (updates st)) /\
  (nrows X_train <> 0 -> length (st_weights st) = ncols X_train ->
   X_val = None \/ y_val = None ->
   exists st',
     fit_iteration self X_train y_train X_val y_val patience_arg print_loss
       i st = Ok (st', Continue)).
Proof.
  intros Hrect Hlen. split.
  - intros st' Hit.
    pose proof (fit_iteration_outcome _ _ _ _ _ _ _ _ _ Hit) as Hu.
    simpl in Hu. split; [|exact Hu].
    assert (HN : nrows X_train <> 0).
    { intros HN. unfold fit_iteration in Hit.
      destruct (forward X_train (st_weights st) (st_bias st)) as [p|e];
        simpl in Hit; [|discriminate].
      destruct (mean_log_loss y_train p) as [l|e]; simpl in Hit;
        [|discriminate].
      destruct (validation _ _ _ _ _ _) as [[st1 [|]]|e]; simpl in Hit;
        try discriminate.
      now rewrite gradient_descent_empty in Hit. }
    assert (Hw : length (st_weights st) = ncols X_train).
    { unfold fit_iteration, forward, np_dot in Hit.
      destruct (Nat.eqb (ncols X_train) (length (st_weights st))) eqn:E;
        [|discriminate].
      now apply Nat.eqb_eq in E. }
    destruct (fit_iteration_spec self y_train X_val y_val patience_arg
                print_loss Hrect Hlen i st HN Hw) as [loss Hs].
    rewrite Hs in Hit. clear Hs.
    destruct (validation _ _ _ _ _ _) as [[st1 c1]|e] eqn:Hv;
      [|discriminate].
    apply validation_params in Hv. destruct Hv as [Hp _].
    destruct (report_training_params print_loss i loss st) as [Hp' _].
    destruct c1; [|discriminate].
    injection Hit as <-. unfold descend. cbn [st_weights st_bias].
    rewrite Hp, Hp'. unfold params.
    now destruct (gd_step X_train y_train (learning_rate self)
                    (st_weights st, st_bias st)).
  - intros HN Hw Hno.
    destruct (fit_iteration_spec self y_train X_val y_val patience_arg
                print_loss Hrect Hlen i st HN Hw) as [loss Hs].
    rewrite (validation_absent self X_train y_train patience_arg print_loss Hno) in Hs.
    eexists. exact Hs.
Qed.

(** C8.  Validation monitoring and early stopping occur only when both
    [X_val] and [y_val] are given: with one of them (or both) missing, [fit]
    behaves as without validation arrays and without patience, no validation
    curve is collected, and the loop runs exactly [max_iteration] iterations
    (none for a negative [max_iteration]) whatever the patience; on
    well-shaped training data it does complete, with the parameters of
    [max_iteration] updates. *)
Theorem validation_needs_both_arrays
    (self : LogisticRegression num) (X_train : matrix num)
    (y_train : list num) (X_val : option (matrix num))
    (y_val : option (list num)) (patience_arg : option Z)
    (print_loss plot_loss : bool) :
  X_val = None \/ y_val = None ->
  fit self X_train y_train X_val y_val patience_arg print_loss plot_loss =
  fit self X_train y_train None None None print_loss plot_loss /\
  (forall r,
      fit self X_train y_train X_val y_val patience_arg print_loss plot_loss
        = Ok r ->
      iterations r = Z.to_nat (max_iteration self) /\
      stopped_at r = None /\
      forall f, shown r = Some f -> validation_curve f = None) /\
  (rectangular X_train -> length y_train = nrows X_train ->
   nrows X_train <> 0 ->
   exists r,
     fit self X_train y_train X_val y_val patience_arg print_loss plot_loss
       = Ok r /\
     weights (model r) =
       Some (fst (params_after X_train y_train (learning_rate self)
                    (Z.to_nat (max_iteration self)))) /\
     bias (model r) =
       Some (snd (params_after X_train y_train (learning_rate self)
                    (Z.to_nat (max_iteration self))))).
Proof.
  intros Hno. split; [|split].
  - unfold fit.
    assert (Hinit : initial_state X_train X_val y_val
                    = initial_state X_train None None).
    { unfold initial_state.
      destruct Hno as [-> | ->]; [reflexivity|now destruct X_val]. }
    assert (Hplot : forall st, plot X_val y_val plot_loss st
                               = plot None None plot_loss st).
    { intros st. unfold plot.
      destruct Hno as [-> | ->]; [reflexivity|now destruct X_val]. }
    rewrite Hinit.
    rewrite (for_range_ext
               (fit_iteration self X_train y_train X_val y_val patience_arg
                  print_loss)
               (fit_iteration self X_train y_train None None None
                  print_loss)).
    + destruct (for_range _ 0 _ _) as [[st s]|e]; simpl; [|reflexivity].
      now rewrite Hplot.
    + intros i st. unfold fit_iteration.
      destruct (forward X_train (st_weights st) (st_bias st)) as [p|e];
        simpl; [|reflexivity].
      destruct (mean_log_loss y_train p) as [l|e]; simpl; [|reflexivity].
      now rewrite (validation_absent self X_train y_train patience_arg print_loss Hno).
  - intros r Hr. apply loop_of_fit in Hr.
    destruct Hr as [st [Hl [_ [_ [Hi Hs]]]]].
    apply loop_without_break in Hl; [|tauto].
    destruct Hl as [Hst Hu]. simpl in Hu.
    split; [congruence|]. split; [exact Hst|].
    intros f. rewrite Hs. unfold plot. destruct plot_loss; [|discriminate].
    destruct Hno as [-> | ->]; [|destruct X_val]; now intros [= <-].
  - intros Hrect Hlen HN.
    destruct (loop_unmonitored patience_arg print_loss Hrect Hlen HN Hno
                (Z.to_nat (max_iteration self))
                (initial_trained self X_train y_train X_val y_val))
      as [st [Hl [Hp Hu]]].
    destruct (fit_of_loop _ _ _ _ _ _ _ plot_loss Hl)
      as [r [Hr [Hw [Hb _]]]].
    exists r. split; [exact Hr|]. simpl in Hp. rewrite <- Hp.
    split; assumption.
Qed.

(** C10.  When early stopping triggers at iteration [i], the loop is left
    before the gradient computation and the update of that iteration: the
    breaking iteration leaves weights and bias unchanged, and the final
    weights and bias of [fit] are exactly those produced by the updates of
    iterations [0 .. i-1]. *)
Theorem early_stop_skips_update
    (self : LogisticRegression num) (X_train : matrix num)
    (y_train : list num) (X_val : option (matrix num))
    (y_val : option (list num)) (patience_arg : option Z)
    (print_loss plot_loss : bool) (r : fit_result) (i : nat) :
  rectangular X_train ->
  length y_train = nrows X_train ->
  nrows X_train <> 0 ->
  fit self X_train y_train X_val y_val patience_arg print_loss plot_loss
    = Ok r ->
  stopped_at r = Some i ->
  (forall k st st',
      fit_iteration self X_train y_train X_val y_val patience_arg print_loss
        k st = Ok (st', Break) ->
      st_weights st' = st_weights st /\ st_bias st' = st_bias st /\
      updates st' = updates st) /\
  weights (model r) =
    Some (fst (params_after X_train y_train (learning_rate self) i)) /\
  bias (model r) =
    Some (snd (params_after X_train y_train (learning_rate self) i)) /\
  iterations r = i /\
  i < Z.to_nat (max_iteration self).
Proof.
  intros Hrect Hlen HN Hr Hstop. split.
  - intros k st st' Hit. apply fit_iteration_outcome in Hit.
    destruct Hit as [Hp [Hu _]]. unfold params in Hp.
    injection Hp as Hw Hb. auto.
  - apply loop_of_fit in Hr.
    destruct Hr as [st [Hl [Hw [Hb [Hi _]]]]]. rewrite Hstop in Hl.
    apply (loop_trained X_val y_val patience_arg print_loss
             Hrect Hlen HN _ (initial_trained self X_train y_train X_val y_val))
      in Hl.
    destruct Hl as [Hrange [Hp Hu]].
    rewrite Hw, Hb, Hi, <- Hp. simpl. repeat split; auto; lia.
Qed.


(** Two instances with the same configuration, whatever their parameters. *)
Definition same_configuration (a b : LogisticRegression num) : Prop :=
  threshold a = threshold b /\ learning_rate a = learning_rate b /\
  max_iteration a = max_iteration b /\ patience a = patience b.

(** C7.  [fit] is deterministic: it sets the weights to zeros and the bias
    to zero before the loop, so its outcome depends on the configuration and
    the inputs only, not on the parameters the instance holds; a second call
    on the instance a first call has trained, with the same inputs, gives
    the same weights and bias (and the same output) again. *)
Theorem fit_is_deterministic
    (self self' : LogisticRegression num) (X_train : matrix num)
    (y_train : list num) (X_val : option (matrix num))
    (y_val : option (list num)) (patience_arg : option Z)
    (print_loss plot_loss : bool) :
  same_configuration self self' ->
  fit self' X_train y_train X_val y_val patience_arg print_loss plot_loss =
  fit self X_train y_train X_val y_val patience_arg print_loss plot_loss /\
  forall r,
    fit self X_train y_train X_val y_val patience_arg print_loss plot_loss
      = Ok r ->
    fit (model r) X_train y_train X_val y_val patience_arg print_loss
      plot_loss = Ok r.
Proof.
  assert (Hsame : forall a b, same_configuration a b ->
            fit b X_train y_train X_val y_val patience_arg print_loss
              plot_loss =
            fit a X_train y_train X_val y_val patience_arg print_loss
              plot_loss).
  { intros a b (Ht & Hl & Hm & Hp). unfold fit.
    rewrite <- Ht, <- Hl, <- Hm, <- Hp.
    rewrite (for_range_ext
               (fit_iteration b X_train y_train X_val y_val patience_arg
                  print_loss)
               (fit_iteration a X_train y_train X_val y_val patience_arg
                  print_loss)); [reflexivity|].
    intros i st. unfold fit_iteration, gradient_descent.
    now rewrite Hl. }
  intros H. split; [now apply Hsame|].
  intros r Hr. rewrite <- Hr. apply Hsame.
  unfold fit in Hr.
  destruct (for_range _ 0 _ _) as [[st s]|e]; simpl in Hr; [|discriminate].
  injection Hr as <-. simpl. repeat split; reflexivity.
Qed.

(** C6.  For every test sample, [predict] assigns label 1 exactly when the
    predicted probability [sigmoid(X_test . weights + bias)] is strictly
    above the threshold, and label 0 otherwise; a probability equal to the
    threshold gets label 0 (as [<] never holds between a value and
    itself). *)
Theorem predict_strict_threshold
    (self : LogisticRegression num) (X_test : matrix num) (w : list num)
    (b : num) :
  (forall x : num, fltb x x = false) ->
  weights self = Some w ->
  bias self = Some b ->
  ncols X_test = length w ->
  exists probs labels,
    probs = map (fun r => sigmoid (fadd (dot r w) b)) (rows X_test) /\
    predict_proba self X_test = Ok probs /\
    predict self X_test = Ok labels /\
    length labels = nrows X_test /\
    forall k pr, nth_error probs k = Some pr ->
      exists l, nth_error labels k = Some l /\
        (l = 1%Z <-> fltb (threshold self) pr = true) /\
        (l = 0%Z <-> fltb (threshold self) pr = false) /\
        (pr = threshold self -> l = 0%Z).
Proof.
  intros Hirr Hw Hb Hal.
  assert (Hp : predict_proba self X_test =
               Ok (map (fun r => sigmoid (fadd (dot r w) b)) (rows X_test))).
  { unfold predict_proba. rewrite Hw, Hb, forward_aligned by exact Hal.
    now rewrite !map_map. }
  eexists. eexists. split; [reflexivity|]. split; [exact Hp|].
  unfold predict. rewrite Hp. simpl. split; [reflexivity|].
  split; [now rewrite !length_map|].
  intros k pr Hk. exists (classify self pr).
  split; [now apply map_nth_error|].
  assert (Hthr : pr = threshold self -> fltb (threshold self) pr = false)
    by (intros ->; apply Hirr).
  unfold classify.
  destruct (fltb (threshold self) pr); repeat split; intros;
    try reflexivity; try discriminate.
  specialize (Hthr ltac:(assumption)). discriminate.
Qed.

(** C5, as the code has it.  For [X_train] of shape (N, F) and a
    [y_train] whose length is neither N nor 1, a call of [fit] that enters
    its loop fails with a dimension mismatch: in the broadcasting of the loss
    when N is not 1, and (without validation data) in the gradient's
    [np.dot] when N is 1. *)
Theorem mismatched_labels_raise
    (self : LogisticRegression num) (X_train : matrix num)
    (y_train : list num) (X_val : option (matrix num))
    (y_val : option (list num)) (patience_arg : option Z)
    (print_loss plot_loss : bool) :
  length y_train <> nrows X_train ->
  length y_train <> 1 ->
  (0 < max_iteration self)%Z ->
  (nrows X_train <> 1 ->
   fit self X_train y_train X_val y_val patience_arg print_loss plot_loss
   = Raise ValueError_broadcast) /\
  (nrows X_train = 1 -> X_val = None \/ y_val = None ->
   fit self X_train y_train X_val y_val patience_arg print_loss plot_loss
   = Raise ValueError_not_aligned).
Proof.
  intros HM H1 Hmax.
  destruct (Z.to_nat (max_iteration self)) as [|n] eqn:En; [lia|].
  assert (Hf : forward X_train (repeat fzero (ncols X_train)) fzero =
               Ok (map sigmoid
                     (map (fun z => fadd z fzero)
                        (map (fun r => dot r (repeat fzero (ncols X_train)))
                           (rows X_train))))).
  { apply forward_aligned. now rewrite repeat_length. }
  split.
  - intros HN. unfold fit. rewrite En. simpl.
    unfold fit_iteration. simpl. rewrite Hf. simpl.
    unfold mean_log_loss.
    rewrite broadcast_mismatch; [reflexivity| | |];
      rewrite ?length_map; auto.
  - intros HN Hno. unfold fit. rewrite En. simpl.
    unfold fit_iteration. simpl. rewrite Hf. simpl.
    unfold nrows in HN.
    destruct (rows X_train) as [|r0 [|r1 rs]] eqn:Er; try discriminate.
    simpl. unfold mean_log_loss. simpl.
    rewrite !broadcast_stretch_right. simpl.
    rewrite broadcast_same by now rewrite !length_map.
    simpl.
    rewrite (validation_absent self X_train y_train patience_arg print_loss
               Hno).
    simpl. unfold gradient_descent, nrows. rewrite Er. simpl.
    rewrite broadcast_stretch_left. simpl.
    unfold np_dot. simpl. unfold nrows. rewrite Er. simpl.
    rewrite length_map.
    destruct (length y_train) as [|[|m]] eqn:Ey; simpl in *;
      try reflexivity; congruence.
Qed.

End Claims.

(** ** Exact arithmetic *)

Section Exact.

Local Open Scope R_scope.

Lemma add_Fin (a b : R) : X.add (Fin a) (Fin b) = Fin (a + b).
Proof. reflexivity. Qed.

Lemma sub_Fin (a b : R) : X.sub (Fin a) (Fin b) = Fin (a - b).
Proof. reflexivity. Qed.

Lemma mul_Fin (a b : R) : X.mul (Fin a) (Fin b) = Fin (a * b).
Proof. reflexivity. Qed.

Lemma opp_Fin (a : R) : X.opp (Fin a) = Fin (- a).
Proof. reflexivity. Qed.

Lemma exp_Fin (a : R) : X.exp (Fin a) = Fin (exp a).
Proof. reflexivity. Qed.

Lemma div_Fin (a b : R) : b <> 0 -> X.div (Fin a) (Fin b) = Fin (a / b).
Proof.
  intros H. unfold X.div.
  destruct (Req_dec_T b 0); [contradiction|reflexivity].
Qed.

Lemma log_Fin (a : R) : 0 < a -> X.log (Fin a) = Fin (ln a).
Proof.
  intros H. unfold X.log.
  destruct (Rlt_dec 0 a); [reflexivity|contradiction].
Qed.


Lemma ltb_irreflexive (x : xreal) : X.ltb x x = false.
Proof.
  destruct x as [r| | |]; try reflexivity.
  unfold X.ltb. destruct (Rlt_dec r r) as [H|H]; [lra|reflexivity].
Qed.

Lemma logistic_bounds (z : R) : 0 < logistic z < 1.
Proof.
  unfold logistic. pose proof (exp_pos (- z)) as He.
  assert (Hd : 0 < 1 + exp (- z)) by lra.
  split.
  - apply Rdiv_lt_0_compat; lra.
  - apply (Rmult_lt_reg_r (1 + exp (- z))); [exact Hd|].
    unfold Rdiv. rewrite Rmult_assoc, Rinv_l by lra. lra.
Qed.

Lemma sigmoid_Fin (z : R) : sigmoid (Fin z) = Fin (logistic z).
Proof.
  unfold sigmoid, logistic. simpl. apply div_Fin.
  pose proof (exp_pos (- z)). lra.
Qed.

Lemma logistic_0 : logistic 0 = 1 / 2.
Proof. unfold logistic. rewrite Ropp_0, exp_0. lra. Qed.

End Exact.

Arguments X.add : simpl never.
Arguments X.sub : simpl never.
Arguments X.mul : simpl never.
Arguments X.div : simpl never.
Arguments X.opp : simpl never.
Arguments X.exp : simpl never.
Arguments X.log : simpl never.
Arguments X.ltb : simpl never.
Arguments sigmoid : simpl never.

(** Evaluation on finite values. *)
Ltac xreal_eval :=
  repeat first
    [ rewrite add_Fin | rewrite sub_Fin | rewrite mul_Fin | rewrite opp_Fin
    | rewrite exp_Fin | rewrite sigmoid_Fin
    | rewrite div_Fin by lra
    | rewrite log_Fin
        by (match goal with
            | |- (0 < logistic ?z)%R => apply logistic_bounds
            | |- (0 < 1 - logistic ?z)%R =>
                pose proof (logistic_bounds z); lra
            end) ].


(** ** The sample run *)

Section SampleRun.

Import Sample.
Local Open Scope R_scope.

Lemma X2_rectangular : rectangular X2.
Proof. repeat constructor. Qed.

Lemma sample_gd_step (rate : R) :
  gd_step X2 y2 (Fin rate) ([Fin 0], Fin 0) = ([Fin 0], Fin 0).
Proof.
  unfold gd_step, spec_dw, spec_db, one_over_N, probability, score, entry,
    label, big_sum.
  simpl. xreal_eval.
  replace (0 + 0 * 0 + 0) with 0 by ring. rewrite logistic_0.
  f_equal; [f_equal|]; f_equal; lra.
Qed.

Lemma sample_params (q : option Z) (k : nat) :
  params_after X2 y2 (learning_rate (clf q)) k = ([Fin 0], Fin 0).
Proof.
  induction k as [|k IH]; [reflexivity|].
  simpl. simpl in IH. rewrite IH. apply sample_gd_step.
Qed.

Lemma sample_validation_loss :
  validation_loss Xv1 yv1 [Fin 0] (Fin 0) = Ok loss0.
Proof.
  unfold validation_loss, forward, mean_log_loss.
  simpl. unfold np_mean, dot, np_sum. simpl. xreal_eval.
  unfold loss0. do 2 f_equal.
  replace (0 + 0 * 0 + 0) with 0 by ring. rewrite logistic_0.
  replace (1 - 1 / 2) with (/ 2) by lra.
  rewrite ln_Rinv by lra. lra.
Qed.

Lemma sample_losses (q : option Z) (k : nat) :
  validation_loss Xv1 yv1
    (fst (params_after X2 y2 (learning_rate (clf q)) k))
    (snd (params_after X2 y2 (learning_rate (clf q)) k))
  = Ok loss0.
Proof. rewrite sample_params. apply sample_validation_loss. Qed.

(** The counter on a constant sequence of finite losses: 0 after the first
    check, then one more at each check. *)
Lemma sample_counter (k : nat) :
  monitor (fun _ => loss0) (S k) = (loss0, Z.of_nat k).
Proof.
  induction k as [|k IH]; [reflexivity|].
  change (monitor (fun _ => loss0) (S (S k))) with
    (let (best, count) := monitor (fun _ => loss0) (S k) in
     if fltb loss0 best then (loss0, 0%Z) else (best, (count + 1)%Z)).
  rewrite IH. simpl fltb. rewrite ltb_irreflexive. f_equal. lia.
Qed.

(** With a patience of 1 the sample run breaks at iteration 1. *)
Lemma sample_stops (q : option Z) (print_loss plot_loss : bool) :
  exists r,
    fit (clf q) X2 y2 (Some Xv1) (Some yv1) (Some 1%Z) print_loss plot_loss
      = Ok r /\
    stopped_at r = Some 1%nat /\ iterations r = 1%nat.
Proof.
  destruct (fit_stops_at_first (clf q) y2 Xv1 yv1 (Some 1%Z) print_loss
              plot_loss X2_rectangular eq_refl ltac:(discriminate)
              (fun _ => loss0) (k := 1%nat))
    as [r [Hr [Hs [Hi _]]]].
  - simpl. lia.
  - intros i _. apply sample_losses.
  - intros i Hi. assert (i = 0%nat) as -> by lia. reflexivity.
  - unfold counter_at. rewrite sample_counter. reflexivity.
  - exists r. auto.
Qed.

(** Without a patience argument it runs its three iterations. *)
Lemma sample_runs_on (q : option Z) (print_loss plot_loss : bool) :
  exists r,
    fit (clf q) X2 y2 (Some Xv1) (Some yv1) None print_loss plot_loss
      = Ok r /\
    stopped_at r = None /\ iterations r = 3%nat.
Proof.
  destruct (fit_runs_on (clf q) y2 Xv1 yv1 None print_loss plot_loss
              X2_rectangular eq_refl ltac:(discriminate) (fun _ => loss0))
    as [r [Hr [Hs Hi]]].
  - intros i _. apply sample_losses.
  - reflexivity.
  - exists r. auto.
Qed.

End SampleRun.

(** ** A single label *)

Section SingleLabel.

Context {num : Type} {ops : FloatOps num}.

Variable self : LogisticRegression num.
Variable X : matrix num.
Variable l : num.
Variables (X_val : option (matrix num)) (y_val : option (list num)).
Variable patience_arg : option Z.
Variable print_loss : bool.

Hypothesis X_nonempty : nrows X <> 0.
Hypothesis no_validation : X_val = None \/ y_val = None.

Let body := fit_iteration self X [l] X_val y_val patience_arg print_loss.

(** A [y_train] of one label is stretched over the samples, in the loss
    and in the gradient alike. *)
Lemma body_single_label (i : nat) (st : loop_state) :
  length (st_weights st) = ncols X ->
  exists st',
    body i st = Ok (st', Continue) /\
    length (st_weights st') = ncols X /\
    updates st' = S (updates st).
Proof.
  intros Hw. unfold body, fit_iteration.
  rewrite forward_aligned by congruence. simpl.
  unfold mean_log_loss. cbn [map].
  rewrite broadcast_stretch_left. cbn [bind].
  rewrite broadcast_stretch_left. cbn [bind].
  rewrite broadcast_same by now rewrite !length_map.
  cbn [bind].
  rewrite (validation_absent self X [l] patience_arg print_loss
             no_validation).
  simpl. unfold gradient_descent.
  apply Nat.eqb_neq in X_nonempty. rewrite X_nonempty.
  rewrite !broadcast_stretch_right. cbn [bind].
  match goal with
  | |- context [report_training ?p ?k ?loss ?s] =>
      destruct (report_training_params p k loss s) as [Hp Hu];
      set (st0 := report_training p k loss s) in *
  end.
  unfold params in Hp. injection Hp as Hw0 _.
  rewrite np_dot_aligned
    by (cbn [ncols transpose]; unfold nrows; now rewrite !length_map).
  cbn [bind]. eexists. split; [reflexivity|].
  cbn [st_weights updates]. split; [|now rewrite Hu].
  rewrite zip_with_length, !length_map. cbn [rows transpose].
  rewrite length_map, length_seq, Hw0, Hw. lia.
Qed.

Lemma loop_single_label (n i : nat) (st : loop_state) :
  length (st_weights st) = ncols X ->
  exists st',
    for_range body i n st = Ok (st', None) /\
    updates st' = (updates st + n)%nat.
Proof.
  revert i st. induction n as [|n IH]; intros i st Hw; simpl.
  - exists st. split; [reflexivity|lia].
  - destruct (body_single_label i st Hw) as [st1 [Hb [Hw1 Hu1]]].
    rewrite Hb. destruct (IH (S i) st1 Hw1) as [st' [Hl Hu]].
    exists st'. split; [exact Hl|lia].
Qed.

Lemma fit_single_label (plot_loss : bool) :
  exists r,
    fit self X [l] X_val y_val patience_arg print_loss plot_loss = Ok r /\
    iterations r = Z.to_nat (max_iteration self).
Proof.
  destruct (loop_single_label (Z.to_nat (max_iteration self)) 0
              (initial_state X X_val y_val)) as [st [Hl Hu]].
  { simpl. apply repeat_length. }
  destruct (fit_of_loop _ _ _ _ _ _ _ plot_loss Hl)
    as [r [Hr [_ [_ [Hi _]]]]].
  exists r. split; [exact Hr|]. rewrite Hi, Hu. reflexivity.
Qed.

End SingleLabel.

(** ** The claims on the sample inputs *)

Section SampleClaims.

Import Sample.
Local Open Scope R_scope.

(** C5, refuted as stated: the training array has two samples and
    [y_train] has one label, and [fit] completes its three iterations: numpy
    stretches the single label over both samples. *)
Lemma single_label_is_broadcast :
  length [Fin 1] <> nrows X2 /\
  exists r,
    fit (clf None) X2 [Fin 1] None None None false false = Ok r /\
    iterations r = 3%nat.
Proof.
  split; [discriminate|].
  apply (fit_single_label (clf None) X2 (Fin 1) None false);
    [discriminate|now left].
Qed.

(** C1, at the failing input: the instance is constructed with
    [patience=1] and [fit] is called with validation data and no patience
    argument.  The stored patience is not used: the loop runs its three
    iterations, although the validation loss never improves after the first
    check; with the same patience as argument it is left at iteration 1. *)
Theorem constructor_patience_is_ignored :
  patience (clf (Some 1%Z)) = Some 1%Z /\
  (exists r,
      fit (clf (Some 1%Z)) X2 y2 (Some Xv1) (Some yv1) None false false
        = Ok r /\
      stopped_at r = None /\ iterations r = 3%nat) /\
  (exists r,
      fit (clf (Some 1%Z)) X2 y2 (Some Xv1) (Some yv1) (Some 1%Z) false false
        = Ok r /\
      stopped_at r = Some 1%nat /\ iterations r = 1%nat).
Proof.
  split; [reflexivity|]. split.
  - apply sample_runs_on.
  - apply sample_stops.
Qed.


Lemma update_is_gradient_step_witness :
  exists st',
    fit_iteration (clf None) X2 y2 None None None false 0
      (initial_state X2 None None) = Ok (st', Continue) /\
    (st_weights st', st_bias st') =
      gd_step X2 y2 (learning_rate (clf None)) ([Fin 0], Fin 0) /\
    updates st' = 1%nat.
Proof.
  destruct (@update_is_gradient_step xreal xreal_ops (clf None) X2 y2
              None None None false 0%nat (initial_state X2 None None))
    as [Hstep Hruns].
  - repeat constructor.
  - reflexivity.
  - destruct Hruns as [st' Hit].
    + discriminate.
    + reflexivity.
    + now left.
    + exists st'. split; [exact Hit|]. apply (Hstep st' Hit).
Defined.

Lemma validation_needs_both_arrays_witness :
  fit (clf None) X2 y2 (Some Xv1) None (Some 1%Z) true true =
  fit (clf None) X2 y2 None None None true true.
Proof.
  refine (proj1 (@validation_needs_both_arrays xreal xreal_ops (clf None)
                   X2 y2 (Some Xv1) None (Some 1%Z) true true _)).
  now right.
Defined.

Lemma early_stop_skips_update_witness :
  exists r,
    fit (clf None) X2 y2 (Some Xv1) (Some yv1) (Some 1%Z) false false
      = Ok r /\
    weights (model r) =
      Some (fst (params_after X2 y2 (learning_rate (clf None)) 1)) /\
    bias (model r) =
      Some (snd (params_after X2 y2 (learning_rate (clf None)) 1)) /\
    iterations r = 1%nat.
Proof.
  destruct (sample_stops None false false) as [r [Hr [Hs _]]].
  exists r. split; [exact Hr|].
  destruct (@early_stop_skips_update xreal xreal_ops (clf None) X2 y2
              (Some Xv1) (Some yv1) (Some 1%Z) false false r 1%nat)
    as [_ [Hw [Hb [Hi _]]]].
  - repeat constructor.
  - reflexivity.
  - discriminate.
  - exact Hr.
  - exact Hs.
  - auto.
Defined.

Lemma fit_is_deterministic_witness :
  fit {| weights := Some [Fin 5]; bias := Some (Fin 7);
         threshold := Fin (1 / 2); learning_rate := Fin (1 / 10);
         max_iteration := 3; patience := None |}
    X2 y2 None None None true true =
  fit (clf None) X2 y2 None None None true true.
Proof.
  refine (proj1 (@fit_is_deterministic xreal xreal_ops (clf None)
                   {| weights := Some [Fin 5]; bias := Some (Fin 7);
                      threshold := Fin (1 / 2); learning_rate := Fin (1 / 10);
                      max_iteration := 3; patience := None |}
                   X2 y2 None None None true true _)).
  repeat split; reflexivity.
Defined.

(** A sample exactly on the decision boundary: with all-zero parameters
    the probability is 1/2, the threshold. *)
Lemma predict_strict_threshold_witness :
  exists probs labels,
    probs = map (fun r => sigmoid (fadd (dot r [Fin 0]) (Fin 0)))
              (rows Xv1) /\
    predict_proba
      {| weights := Some [Fin 0]; bias := Some (Fin 0);
         threshold := Fin (1 / 2); learning_rate := Fin (1 / 10);
         max_iteration := 3; patience := None |} Xv1 = Ok probs /\
    predict
      {| weights := Some [Fin 0]; bias := Some (Fin 0);
         threshold := Fin (1 / 2); learning_rate := Fin (1 / 10);
         max_iteration := 3; patience := None |} Xv1 = Ok labels /\
    length labels = nrows Xv1 /\
    forall k pr, nth_error probs k = Some pr ->
      exists l, nth_error labels k = Some l /\
        (l = 1%Z <-> X.ltb (Fin (1 / 2)) pr = true) /\
        (l = 0%Z <-> X.ltb (Fin (1 / 2)) pr = false) /\
        (pr = Fin (1 / 2) -> l = 0%Z).
Proof.
  apply (@predict_strict_threshold xreal xreal_ops
           {| weights := Some [Fin 0]; bias := Some (Fin 0);
              threshold := Fin (1 / 2); learning_rate := Fin (1 / 10);
              max_iteration := 3; patience := None |}
           Xv1 [Fin 0] (Fin 0)).
  - exact ltb_irreflexive.
  - reflexivity.
  - reflexivity.
  - reflexivity.
Defined.

Lemma mismatched_labels_raise_witness :
  fit (clf None) X2 [Fin 0; Fin 0; Fin 1] None None None true true
  = Raise ValueError_broadcast.
Proof.
  refine (proj1 (@mismatched_labels_raise xreal xreal_ops (clf None) X2
                   [Fin 0; Fin 0; Fin 1] None None None true true _ _ _) _).
  - discriminate.
  - discriminate.
  - reflexivity.
  - discriminate.
Defined.

End SampleClaims.

(** * Further properties of the code *)

(** ** Shapes kept by the loop *)

Section Shapes.

Context {num : Type} {ops : FloatOps num}.

Variable self : LogisticRegression num.
Variables (X : matrix num) (y : list num).
Variables (X_val : option (matrix num)) (y_val : option (list num)).
Variable patience_arg : option Z.
Variable print_loss : bool.

Lemma np_dot_length (M : matrix num) (d g : list num) :
  np_dot M d = Ok g -> length g = nrows M.
Proof.
  unfold np_dot. destruct (Nat.eqb (ncols M) (length d)); [|discriminate].
  intros [= <-]. now rewrite length_map.
Qed.

(** Every iteration that completes leaves one weight per feature. *)
Lemma fit_iteration_weights (i : nat) (st st' : loop_state) (c : control) :
  fit_iteration self X y X_val y_val patience_arg print_loss i st
  = Ok (st', c) ->
  length (st_weights st) = ncols X /\ length (st_weights st') = ncols X.
Proof.
  intros Hit.
  assert (Hw : length (st_weights st) = ncols X).
  { unfold fit_iteration, forward, np_dot in Hit.
    destruct (Nat.eqb (ncols X) (length (st_weights st))) eqn:E;
      [|discriminate].
    now apply Nat.eqb_eq in E. }
  split; [exact Hw|].
  destruct c.
  - unfold fit_iteration in Hit.
    destruct (forward X (st_weights st) (st_bias st)) as [p|e];
      simpl in Hit; [|discriminate].
    destruct (mean_log_loss y p) as [loss|e]; simpl in Hit; [|discriminate].
    destruct (validation X_val y_val patience_arg print_loss i
                (report_training print_loss i loss st))
      as [[st1 c1]|e] eqn:Hv; simpl in Hit; [|discriminate].
    apply validation_params in Hv. destruct Hv as [Hp _].
    destruct (report_training_params print_loss i loss st) as [Hp' _].
    rewrite Hp' in Hp. unfold params in Hp. injection Hp as Hw1 _.
    destruct c1; [|discriminate].
    unfold gradient_descent in Hit.
    destruct (Nat.eqb (nrows X) 0); [discriminate|].
    destruct (broadcast fsub p y) as [d|e]; simpl in Hit; [|discriminate].
    destruct (np_dot (transpose X) d) as [g|e] eqn:Hg; simpl in Hit;
      [|discriminate].
    apply np_dot_length in Hg. unfold nrows in Hg. simpl in Hg.
    rewrite length_map, length_seq in Hg.
    injection Hit as <-. simpl.
    rewrite zip_with_length, !length_map, Hw1, Hw, Hg. lia.
  - apply fit_iteration_outcome in Hit. destruct Hit as [Hp _].
    unfold params in Hp. injection Hp as Hw1 _. congruence.
Qed.

Lemma loop_weights (n i : nat) (st st' : loop_state) (s : option nat) :
  length (st_weights st) = ncols X ->
  for_range (fit_iteration self X y X_val y_val patience_arg print_loss)
    i n st = Ok (st', s) ->
  length (st_weights st') = ncols X.
Proof.
  revert i st. induction n as [|n IH]; intros i st Hw; simpl.
  - now intros [= <- <-].
  - destruct (fit_iteration self X y X_val y_val patience_arg print_loss i st)
      as [[st1 c]|e] eqn:Hb; [|discriminate].
    apply fit_iteration_weights in Hb. destruct Hb as [_ Hw1].
    destruct c; [now apply IH|].
    now intros [= <- <-].
Qed.

End Shapes.

Section Composition.

Context {num : Type} {ops : FloatOps num}.

(** X1.  [fit] then [predict]: a completed [fit] leaves one weight per
    training feature and a bias; [predict] on the trained instance then
    returns one label per test sample, each 0 or 1, for a test array with
    the same number of features, and raises numpy's shapes-not-aligned
    [ValueError] for any other number of features. *)
Theorem fit_then_predict
    (self : LogisticRegression num) (X_train : matrix num)
    (y_train : list num) (X_val : option (matrix num))
    (y_val : option (list num)) (patience_arg : option Z)
    (print_loss plot_loss : bool) (r : fit_result) :
  fit self X_train y_train X_val y_val patience_arg print_loss plot_loss
    = Ok r ->
  (exists w b,
      weights (model r) = Some w /\ bias (model r) = Some b /\
      length w = ncols X_train) /\
  forall X_test,
    if Nat.eqb (ncols X_test) (ncols X_train)
    then exists labels,
        predict (model r) X_test = Ok labels /\
        length labels = nrows X_test /\
        Forall (fun l => l = 0%Z \/ l = 1%Z) labels
    else predict (model r) X_test = Raise ValueError_not_aligned.
Proof.
  intros Hr. apply loop_of_fit in Hr.
  destruct Hr as [st [Hl [Hw [Hb _]]]].
  apply loop_weights in Hl; [|simpl; apply repeat_length].
  split; [eauto|].
  intros X_test. unfold predict, predict_proba. rewrite Hw, Hb.
  unfold forward, np_dot. rewrite Hl.
  destruct (Nat.eqb (ncols X_test) (ncols X_train)); [|reflexivity].
  simpl. eexists. split; [reflexivity|]. split.
  - now rewrite !length_map.
  - apply Forall_forall. intros l Hin. apply in_map_iff in Hin.
    destruct Hin as [p [<- _]]. unfold classify.
    destruct (fltb (threshold (model r)) p); auto.
Qed.

(** X2.  A patience of 0 is no patience: Python reads [0] as false in the
    test of line 132, so [fit(..., patience=0)] never stops early and does
    exactly what [fit(..., patience=None)] does. *)
Theorem zero_patience_is_no_patience
    (self : LogisticRegression num) (X_train : matrix num)
    (y_train : list num) (X_val : option (matrix num))
    (y_val : option (list num)) (print_loss plot_loss : bool) :
  fit self X_train y_train X_val y_val (Some 0%Z) print_loss plot_loss =
  fit self X_train y_train X_val y_val None print_loss plot_loss /\
  forall r,
    fit self X_train y_train X_val y_val (Some 0%Z) print_loss plot_loss
      = Ok r ->
    stopped_at r = None /\ iterations r = Z.to_nat (max_iteration self).
Proof.
  assert (E : fit self X_train y_train X_val y_val (Some 0%Z) print_loss
                plot_loss =
              fit self X_train y_train X_val y_val None print_loss plot_loss).
  { unfold fit.
    rewrite (for_range_ext
               (fit_iteration self X_train y_train X_val y_val (Some 0%Z)
                  print_loss)
               (fit_iteration self X_train y_train X_val y_val None
                  print_loss)); [reflexivity|].
    intros i st. reflexivity. }
  split; [exact E|].
  intros r Hr. rewrite E in Hr. apply loop_of_fit in Hr.
  destruct Hr as [st [Hl [_ [_ [Hi _]]]]].
  apply loop_without_break in Hl; [|right; right; reflexivity].
  destruct Hl as [Hs Hu]. split; [exact Hs|]. rewrite Hi, Hu. reflexivity.
Qed.

(** X3.  A negative patience stops at once: with validation data whose
    loss can be computed, the stop test of line 132 holds in iteration 0,
    whatever the validation loss, so [fit] breaks before any update and
    leaves the all-zero weights and the zero bias. *)
Theorem negative_patience_stops_at_once
    (self : LogisticRegression num) (X_train : matrix num)
    (y_train : list num) (Xv : matrix num) (yv : list num) (p : Z)
    (print_loss plot_loss : bool) (v : num) :
  (p < 0)%Z ->
  (0 < max_iteration self)%Z ->
  length y_train = nrows X_train ->
  validation_loss Xv yv (repeat fzero (ncols X_train)) fzero = Ok v ->
  exists r,
    fit self X_train y_train (Some Xv) (Some yv) (Some p) print_loss plot_loss
      = Ok r /\
    stopped_at r = Some 0 /\ iterations r = 0 /\
    weights (model r) = Some (repeat fzero (ncols X_train)) /\
    bias (model r) = Some fzero.
Proof.
  intros Hp Hmax Hlen Hv.
  destruct (Z.to_nat (max_iteration self)) as [|n] eqn:En; [lia|].
  set (st0 := initial_state X_train (Some Xv) (Some yv)).
  assert (Hit : exists st',
             fit_iteration self X_train y_train (Some Xv) (Some yv) (Some p)
               print_loss 0 st0 = Ok (st', Break) /\
             st_weights st' = repeat fzero (ncols X_train) /\
             st_bias st' = fzero /\ updates st' = 0).
  { unfold fit_iteration.
    change (st_weights st0) with (repeat (@fzero num ops) (ncols X_train)).
    change (st_bias st0) with (@fzero num ops).
    rewrite forward_aligned by now rewrite repeat_length.
    cbn [bind].
    destruct (@mean_log_loss_same _ _ y_train
                (map sigmoid
                   (map (fun z => fadd z fzero)
                      (map (fun r => dot r (repeat fzero (ncols X_train)))
                         (rows X_train))))) as [loss Hloss].
    { rewrite !length_map. exact Hlen. }
    rewrite Hloss. cbn [bind].
    set (st1 := report_training print_loss 0 loss st0).
    assert (H1 : st_weights st1 = repeat fzero (ncols X_train) /\
                 st_bias st1 = fzero /\ no_improvement_count st1 = 0%Z /\
                 updates st1 = 0).
    { unfold st1, report_training.
      destruct (reporting print_loss 0); repeat split. }
    destruct H1 as [Hw [Hb [Hc Hu]]].
    unfold validation. rewrite Hw, Hb, Hv. cbn [bind].
    unfold early_stopping.
    assert (Hs : stop_now (Some p)
                   (no_improvement_count
                      (record_validation print_loss 0 v st1)) = true).
    { unfold stop_now, record_validation. simpl.
      destruct (Z.eqb_spec p 0) as [E|_]; [lia|]. simpl.
      apply Z.leb_le. rewrite Hc.
      destruct (fltb v (best_loss st1)); lia. }
    rewrite Hs. eexists. split; [reflexivity|]. simpl. auto. }
  destruct Hit as [st' [Hit [Hw [Hb Hu]]]].
  unfold fit. rewrite En. cbn [for_range]. fold st0. rewrite Hit.
  cbn [bind]. eexists. split; [reflexivity|]. simpl.
  repeat split; congruence.
Qed.

End Composition.

(** ** What validation can and cannot change *)

Section Influence.

Context {num : Type} {ops : FloatOps num}.

(** X4.  Validation data and patience only decide how many updates are
    made, never what they are: on well-shaped training data, whatever the
    validation arrays and the patience, a completed [fit] leaves exactly the
    parameters of as many gradient steps as it made updates, at most
    [max_iteration] of them, and all of them unless the loop was left by
    [break]. *)
Theorem validation_only_cuts_training
    (self : LogisticRegression num) (X_train : matrix num)
    (y_train : list num) (X_val : option (matrix num))
    (y_val : option (list num)) (patience_arg : option Z)
    (print_loss plot_loss : bool) (r : fit_result) :
  rectangular X_train ->
  length y_train = nrows X_train ->
  nrows X_train <> 0 ->
  fit self X_train y_train X_val y_val patience_arg print_loss plot_loss
    = Ok r ->
  weights (model r) =
    Some (fst (params_after X_train y_train (learning_rate self)
                 (iterations r))) /\
  bias (model r) =
    Some (snd (params_after X_train y_train (learning_rate self)
                 (iterations r))) /\
  iterations r <= Z.to_nat (max_iteration self) /\
  match stopped_at r with
  | Some i => iterations r = i /\ i < Z.to_nat (max_iteration self)
  | None => iterations r = Z.to_nat (max_iteration self)
  end.
Proof.
  intros Hrect Hlen HN Hr. apply loop_of_fit in Hr.
  destruct Hr as [st [Hl [Hw [Hb [Hi _]]]]].
  apply (loop_trained X_val y_val patience_arg print_loss
           Hrect Hlen HN _ (initial_trained self X_train y_train X_val y_val))
    in Hl.
  rewrite Hw, Hb, Hi.
  destruct (stopped_at r) as [i|].
  - destruct Hl as [Hrange [Hp Hu]]. rewrite Hu, <- Hp. simpl.
    repeat split; auto; lia.
  - destruct Hl as [Hp Hu]. rewrite Hu, <- Hp. simpl.
    repeat split; auto.
Qed.

(** X5.  An empty training set: with no sample and no label, a [fit] that
    enters its loop without validation data raises [ZeroDivisionError] (from
    [1 / num_samples], line 137), not a dimension mismatch. *)
Theorem empty_training_set_raises
    (self : LogisticRegression num) (X_train : matrix num)
    (X_val : option (matrix num)) (y_val : option (list num))
    (patience_arg : option Z) (print_loss plot_loss : bool) :
  nrows X_train = 0 ->
  (0 < max_iteration self)%Z ->
  X_val = None \/ y_val = None ->
  fit self X_train [] X_val y_val patience_arg print_loss plot_loss
  = Raise ZeroDivisionError.
Proof.
  intros HN Hmax Hno.
  destruct (Z.to_nat (max_iteration self)) as [|n] eqn:En; [lia|].
  unfold fit. rewrite En. cbn [for_range]. unfold fit_iteration.
  rewrite forward_aligned by (simpl; now rewrite repeat_length).
  unfold nrows in HN. apply length_zero_iff_nil in HN. rewrite HN.
  cbn [bind map]. unfold mean_log_loss. simpl.
  rewrite (validation_absent self X_train [] patience_arg print_loss Hno).
  simpl. rewrite gradient_descent_empty; [reflexivity|].
  unfold nrows. now rewrite HN.
Qed.

End Influence.

(** ** Reporting *)

Section Reporting.

Context {num : Type} {ops : FloatOps num}.

(** The number of reporting iterations ([i % 100 == 0]) among the first
    [k]. *)
Definition reports (k : nat) : nat := (k + 99) / 100.

(** The lines printed for a trace of training losses, the first of them
    being the [j]-th reported. *)
Fixpoint loss_lines (j : nat) (trace : list num) : list (line num) :=
  match trace with
  | [] => []
  | loss :: trace' =>
      Loss_after_iteration (100 * j) loss :: loss_lines (S j) trace'
  end.

Lemma loss_lines_app (j : nat) (trace : list num) (loss : num) :
  loss_lines j (trace ++ [loss]) =
  loss_lines j trace ++ [Loss_after_iteration (100 * (j + length trace)) loss].
Proof.
  revert j. induction trace as [|x trace IH]; intros j;
    cbn [loss_lines app length].
  - now rewrite Nat.add_0_r.
  - rewrite IH. do 3 f_equal. f_equal. lia.
Qed.

Variable self : LogisticRegression num.
Variables (X : matrix num) (y : list num).
Variables (X_val : option (matrix num)) (y_val : option (list num)).
Variable patience_arg : option Z.
Variable print_loss : bool.

(** Entering iteration [i]: one training loss, one printed line and, with
    validation data, one validation loss for each reporting iteration so
    far, and none of them when [print_loss] is off. *)
Definition traces (st : @loop_state num) (n : nat) : Prop :=
  length (train_losses st) = n /\
  match X_val, y_val with
  | Some _, Some _ =>
      exists trace, val_losses st = Some trace /\ length trace = n
  | _, _ => val_losses st = None
  end.

Definition reported (i : nat) (st : @loop_state num) : Prop :=
  stdout st = loss_lines 0 (train_losses st) /\
  traces st (if print_loss then reports i else 0).

(** Leaving the loop by [break] in iteration [i]: the stop line follows. *)
Definition reported_stop (i : nat) (st : @loop_state num) : Prop :=
  stdout st =
    loss_lines 0 (train_losses st) ++ [Stopped_early_at_iteration (i + 1)] /\
  traces st (if print_loss then reports (S i) else 0).

Lemma reports_step (i : nat) :
  reports (S i) = reports i + (if Nat.eqb (i mod 100) 0 then 1 else 0).
Proof.
  unfold reports.
  destruct (Nat.eqb_spec (i mod 100) 0) as [E|E].
  - pose proof (Nat.div_mod_eq i 100) as H.
    pose proof (Nat.div_mod_eq (i + 99) 100) as H1.
    pose proof (Nat.div_mod_eq (S i + 99) 100) as H2.
    pose proof (Nat.mod_upper_bound (i + 99) 100 ltac:(lia)).
    pose proof (Nat.mod_upper_bound (S i + 99) 100 ltac:(lia)).
    lia.
  - pose proof (Nat.div_mod_eq i 100) as H.
    pose proof (Nat.div_mod_eq (i + 99) 100) as H1.
    pose proof (Nat.div_mod_eq (S i + 99) 100) as H2.
    pose proof (Nat.mod_upper_bound i 100 ltac:(lia)).
    pose proof (Nat.mod_upper_bound (i + 99) 100 ltac:(lia)).
    pose proof (Nat.mod_upper_bound (S i + 99) 100 ltac:(lia)).
    lia.
Qed.

Lemma reports_exact (i : nat) : i mod 100 = 0 -> 100 * reports i = i.
Proof.
  intros E. unfold reports.
  pose proof (Nat.div_mod_eq i 100) as H.
  pose proof (Nat.div_mod_eq (i + 99) 100) as H1.
  pose proof (Nat.mod_upper_bound (i + 99) 100 ltac:(lia)).
  lia.
Qed.

Let body := fit_iteration self X y X_val y_val patience_arg print_loss.

Lemma gradient_descent_traces (p : list num) (st st' : loop_state) :
  gradient_descent self X y p st = Ok st' ->
  train_losses st' = train_losses st /\ val_losses st' = val_losses st /\
  stdout st' = stdout st.
Proof.
  unfold gradient_descent.
  destruct (Nat.eqb (nrows X) 0); [discriminate|].
  destruct (broadcast fsub p y) as [d|e]; simpl; [|discriminate].
  destruct (np_dot (transpose X) d) as [g|e]; simpl; [|discriminate].
  intros [= <-]. simpl. auto.
Qed.

Lemma body_reported (i : nat) (st st' : loop_state) (c : control) :
  reported i st -> body i st = Ok (st', c) ->
  match c with
  | Continue => reported (S i) st'
  | Break => reported_stop i st'
  end.
Proof.
  intros [Hout [Hlen Hval]]. unfold body, fit_iteration.
  destruct (forward X (st_weights st) (st_bias st)) as [p|e]; simpl;
    [|discriminate].
  destruct (mean_log_loss y p) as [loss|e]; simpl; [|discriminate].
  set (st1 := report_training print_loss i loss st).
  (* lines 111-113 *)
  assert (H1 : stdout st1 = loss_lines 0 (train_losses st1) /\
               length (train_losses st1) =
                 (if print_loss then reports (S i) else 0) /\
               val_losses st1 = val_losses st).
  { unfold st1, report_training. rewrite reports_step.
    unfold reporting. destruct print_loss; cbn [andb].
    - destruct (Nat.eqb (i mod 100) 0) eqn:E;
        cbn [stdout train_losses val_losses].
      + apply Nat.eqb_eq in E.
        rewrite loss_lines_app, length_app, Hout, Hlen.
        cbn [length Nat.add]. rewrite reports_exact by exact E. auto.
      + rewrite Nat.add_0_r. auto.
    - auto. }
  destruct H1 as [Hout1 [Hlen1 Hval1]].
  (* lines 116-134 *)
  assert (H2 : forall st2 c2,
             validation X_val y_val patience_arg print_loss i st1
             = Ok (st2, c2) ->
             train_losses st2 = train_losses st1 /\
             traces st2 (if print_loss then reports (S i) else 0) /\
             stdout st2 =
               stdout st1 ++
               match c2 with
               | Break => [Stopped_early_at_iteration (i + 1)]
               | Continue => []
               end).
  { intros st2 c2. unfold validation, traces in *.
    destruct X_val as [Xv|]; [destruct y_val as [yv|]|].
    - destruct (validation_loss Xv yv (st_weights st1) (st_bias st1))
        as [v|e]; simpl; [|discriminate].
      unfold early_stopping.
      destruct Hval as [trace [Htr Hlt]]. rewrite <- Hval1 in Htr.
      assert (Hrec : exists trace',
                 val_losses (record_validation print_loss i v st1)
                 = Some trace' /\
                 length trace' = (if print_loss then reports (S i) else 0)).
      { unfold record_validation. cbn [val_losses]. rewrite Htr.
        rewrite reports_step. unfold reporting.
        destruct print_loss; cbn [andb].
        - destruct (Nat.eqb (i mod 100) 0); cbn [option_map]; eexists;
            (split; [reflexivity|]); rewrite ?length_app; cbn [length]; lia.
        - eexists. split; [reflexivity|exact Hlt]. }
      destruct (stop_now patience_arg _); intros [= <- <-]; simpl;
        rewrite ?app_nil_r; auto.
    - intros [= <- <-]. rewrite app_nil_r, Hval1. auto.
    - intros [= <- <-]. rewrite app_nil_r, Hval1. auto. }
  destruct (validation X_val y_val patience_arg print_loss i st1)
    as [[st2 c2]|e] eqn:Hv; simpl; [|discriminate].
  destruct (H2 st2 c2 eq_refl) as [Htl2 [Htr2 Hout2]].
  destruct c2.
  - destruct (gradient_descent self X y p st2) as [st3|e] eqn:Hg; simpl;
      [|discriminate].
    intros [= <- <-]. apply gradient_descent_traces in Hg.
    destruct Hg as [Ht3 [Hv3 Ho3]].
    rewrite app_nil_r in Hout2. unfold reported, traces in *.
    rewrite Ho3, Ht3, Hv3. split; [congruence|exact Htr2].
  - intros [= <- <-]. unfold reported_stop. split; [congruence|exact Htr2].
Qed.

Lemma loop_reported (n i : nat) (st st' : loop_state) (s : option nat) :
  reported i st -> for_range body i n st = Ok (st', s) ->
  match s with
  | None => reported (i + n) st'
  | Some k => reported_stop k st'
  end.
Proof.
  revert i st. induction n as [|n IH]; intros i st Hrep; simpl.
  - intros [= <- <-]. now rewrite Nat.add_0_r.
  - destruct (body i st) as [[st1 c]|e] eqn:Hb; [|discriminate].
    pose proof (body_reported Hrep Hb) as H1. destruct c.
    + intros H. apply IH in H; [|exact H1].
      destruct s; [exact H|].
      now replace (i + S n) with (S i + n) by lia.
    + now intros [= <- <-].
Qed.

End Reporting.

Section ReportingClaims.

Context {num : Type} {ops : FloatOps num}.

(** X6.  Reporting: over a completed [fit] (with [plot_loss] on, to see the
    curves) that entered [n] iterations, the output is one "Loss after
    iteration" line for each iteration 0, 100, 200, ... below [n], carrying
    the entries of the plotted training curve in order, followed by the
    "Stopped early at iteration i+1" line exactly when the loop was left by
    [break] at [i]; the validation curve, present exactly with both
    validation arrays, has as many entries as the training curve.  With
    [print_loss] off both curves are empty and no loss line is printed. *)
Theorem reporting_cadence
    (self : LogisticRegression num) (X_train : matrix num)
    (y_train : list num) (X_val : option (matrix num))
    (y_val : option (list num)) (patience_arg : option Z)
    (print_loss : bool) (r : fit_result) :
  fit self X_train y_train X_val y_val patience_arg print_loss true = Ok r ->
  exists f,
    shown r = Some f /\
    printed r =
      loss_lines 0 (training_curve f) ++
      match stopped_at r with
      | Some i => [Stopped_early_at_iteration (i + 1)]
      | None => []
      end /\
    length (training_curve f) =
      (if print_loss
       then reports match stopped_at r with
                    | Some i => S i
                    | None => Z.to_nat (max_iteration self)
                    end
       else 0) /\
    match X_val, y_val with
    | Some _, Some _ =>
        exists trace, validation_curve f = Some trace /\
                      length trace = length (training_curve f)
    | _, _ => validation_curve f = None
    end.
Proof.
  unfold fit.
  destruct (for_range
              (fit_iteration self X_train y_train X_val y_val patience_arg
                 print_loss) 0 (Z.to_nat (max_iteration self))
              (initial_state X_train X_val y_val))
    as [[st s]|e] eqn:Hl; simpl; [|discriminate].
  intros [= <-]. simpl.
  apply (@loop_reported num ops self X_train y_train X_val y_val patience_arg
           print_loss) in Hl.
  - unfold plot.
    destruct s as [k|].
    + destruct Hl as [Hout [Hlen Hval]].
      destruct X_val as [Xv|]; [destruct y_val as [yv|]|];
        eexists; (split; [reflexivity|]); simpl;
        (split; [exact Hout|]); (split; [exact Hlen|]).
      * destruct Hval as [trace [Ht Hn]]. exists trace. split; congruence.
      * reflexivity.
      * reflexivity.
    + cbn [Nat.add] in Hl. destruct Hl as [Hout [Hlen Hval]].
      destruct X_val as [Xv|]; [destruct y_val as [yv|]|];
        eexists; (split; [reflexivity|]); simpl;
        (split; [now rewrite app_nil_r|]); (split; [exact Hlen|]).
      * destruct Hval as [trace [Ht Hn]]. exists trace. split; congruence.
      * reflexivity.
      * reflexivity.
  - unfold reported, traces, initial_state. simpl.
    split; [reflexivity|]. split.
    + now destruct print_loss.
    + destruct X_val as [Xv|]; [destruct y_val as [yv|]|]; try reflexivity.
      exists []. split; [reflexivity|]. now destruct print_loss.
Qed.

End ReportingClaims.

(** ** Finite data in exact arithmetic *)

(** Sums and dot products of real numbers, in the order of the code. *)
Definition rsum (l : list R) : R := fold_left Rplus l 0%R.

Definition rdot (x w : list R) : R := rsum (zip_with Rmult x w).

(** An array of real numbers, as the code sees it. *)
Definition finite (l : list R) : list xreal := map Fin l.

Definition finite_matrix (Xr : list (list R)) (F : nat) : matrix xreal :=
  {| rows := map finite Xr; ncols := F |}.

Section FiniteData.

Local Open Scope R_scope.








End FiniteData.

(** ** The printed output grows *)

Section Output.

Context {num : Type} {ops : FloatOps num}.

Variable self : LogisticRegression num.
Variables (X : matrix num) (y : list num).
Variables (X_val : option (matrix num)) (y_val : option (list num)).
Variable patience_arg : option Z.
Variable print_loss : bool.




End Output.

(** ** The first training loss *)

Section FirstLoss.

Local Open Scope R_scope.









End FirstLoss.

Section FirstLossClaim.

Local Open Scope R_scope.




End FirstLossClaim.

(** ** The loss and its gradient on the reals *)







Section Calculus.

Local Open Scope R_scope.








Lemma rdot_nil_r (x : list R) : rdot x [] = 0.
Proof. destruct x; reflexivity. Qed.


End Calculus.

(** ** The code on finite data, against the loss and its gradient *)



Section FiniteTraining.

Local Open Scope R_scope.

Variable Xr : list (list R).
Variable yr : list R.
Variable F : nat.

Hypothesis rows_length : Forall (fun x => length x = F) Xr.
Hypothesis labels_length : length yr = length Xr.
Hypothesis samples : Xr <> [].

Let X := finite_matrix Xr F.
Let y := finite yr.
















End FiniteTraining.

Section GradientClaims.

Local Open Scope R_scope.




End GradientClaims.

(** ** The further properties on the sample inputs *)

Section SampleProperties.

Import Sample.
Local Open Scope R_scope.

Lemma fit_then_predict_witness :
  exists r,
    fit (clf None) X2 y2 (Some Xv1) (Some yv1) (Some 1%Z) true true = Ok r /\
    (exists w b,
        weights (model r) = Some w /\ bias (model r) = Some b /\
        length w = ncols X2) /\
    (exists labels,
        predict (model r) Xv1 = Ok labels /\
        length labels = nrows Xv1 /\
        Forall (fun l => l = 0%Z \/ l = 1%Z) labels) /\
    predict (model r) {| rows := [[Fin 0; Fin 1]]; ncols := 2 |}
    = Raise ValueError_not_aligned.
Proof.
  destruct (sample_stops None true true) as [r [Hr _]].
  exists r. split; [exact Hr|].
  destruct (@fit_then_predict xreal xreal_ops (clf None) X2 y2 (Some Xv1)
              (Some yv1) (Some 1%Z) true true r Hr) as [Hshape Hpredict].
  split; [exact Hshape|]. split.
  - exact (Hpredict Xv1).
  - exact (Hpredict {| rows := [[Fin 0; Fin 1]]; ncols := 2 |}).
Defined.

Lemma negative_patience_stops_at_once_witness :
  exists r,
    fit (clf None) X2 y2 (Some Xv1) (Some yv1) (Some (-1)%Z) true true
      = Ok r /\
    stopped_at r = Some 0%nat /\ iterations r = 0%nat /\
    weights (model r) = Some [Fin 0] /\
    bias (model r) = Some (Fin 0).
Proof.
  apply (@negative_patience_stops_at_once xreal xreal_ops (clf None) X2 y2
           Xv1 yv1 (-1)%Z true true loss0).
  - reflexivity.
  - reflexivity.
  - reflexivity.
  - exact sample_validation_loss.
Defined.

Lemma validation_only_cuts_training_witness :
  exists r,
    fit (clf None) X2 y2 (Some Xv1) (Some yv1) (Some 1%Z) true true = Ok r /\
    weights (model r) =
      Some (fst (params_after X2 y2 (learning_rate (clf None))
                   (iterations r))) /\
    iterations r = 1%nat.
Proof.
  destruct (sample_stops None true true) as [r [Hr [Hs Hi]]].
  exists r. split; [exact Hr|].
  destruct (@validation_only_cuts_training xreal xreal_ops (clf None) X2 y2
              (Some Xv1) (Some yv1) (Some 1%Z) true true r)
    as [Hw _].
  - repeat constructor.
  - reflexivity.
  - discriminate.
  - exact Hr.
  - split; [exact Hw|exact Hi].
Defined.

Lemma empty_training_set_raises_witness :
  fit (clf None) {| rows := []; ncols := 1 |} [] None None None true true
  = Raise ZeroDivisionError.
Proof.
  apply (@empty_training_set_raises xreal xreal_ops (clf None)
           {| rows := []; ncols := 1 |} None None None true true).
  - reflexivity.
  - reflexivity.
  - now left.
Defined.

Lemma reporting_cadence_witness :
  exists r f,
    fit (clf None) X2 y2 (Some Xv1) (Some yv1) (Some 1%Z) true true = Ok r /\
    shown r = Some f /\
    printed r =
      loss_lines 0 (training_curve f) ++
      match stopped_at r with
      | Some i => [Stopped_early_at_iteration (i + 1)]
      | None => []
      end.
Proof.
  destruct (sample_stops None true true) as [r [Hr _]].
  destruct (@reporting_cadence xreal xreal_ops (clf None) X2 y2 (Some Xv1)
              (Some yv1) (Some 1%Z) true r Hr) as [f [Hf [Hp _]]].
  exists r, f. auto.
Defined.




End SampleProperties.

(** ** What the curves record *)

Section Curves.

Context {num : Type} {ops : FloatOps num}.

Variable self : LogisticRegression num.
Variables (X : matrix num) (y : list num).
Variables (X_val : option (matrix num)) (y_val : option (list num)).
Variable patience_arg : option Z.
Variable print_loss : bool.

Hypothesis X_rectangular : rectangular X.
Hypothesis y_length : length y = nrows X.
Hypothesis X_nonempty : nrows X <> 0.

Let theta := params_after X y (learning_rate self).
Let body := fit_iteration self X y X_val y_val patience_arg print_loss.

(** The loss of the data [A], [c] at the parameters of [k] updates. *)
Definition loss_after (A : matrix num) (c : list num) (k : nat)
  : result num :=
  validation_loss A c
    (fst (params_after X y (learning_rate self) k))
    (snd (params_after X y (learning_rate self) k)).

(** Every recorded loss is the loss at the parameters of 100 j updates,
    [j] being its place in the trace. *)
Definition records (st : @loop_state num) : Prop :=
  (forall j loss, nth_error (train_losses st) j = Some loss ->
                  loss_after X y (100 * j) = Ok loss) /\
  (forall trace j v,
      val_losses st = Some trace -> nth_error trace j = Some v ->
      exists Xv yv, X_val = Some Xv /\ y_val = Some yv /\
                    loss_after Xv yv (100 * j) = Ok v).

Lemma nth_error_snoc {A : Type} (l : list A) (x : A) (j : nat) (a : A) :
  nth_error (l ++ [x]) j = Some a ->
  nth_error l j = Some a \/ (j = length l /\ a = x).
Proof.
  intros H. destruct (Nat.lt_ge_cases j (length l)) as [Hlt|Hge].
  - left. now rewrite nth_error_app1 in H.
  - right. rewrite nth_error_app2 in H by exact Hge.
    destruct (j - length l) as [|d] eqn:E.
    + simpl in H. injection H as <-. split; [lia|reflexivity].
    + simpl in H. destruct d; discriminate.
Qed.

(** What an iteration adds to the traces. *)
Lemma fit_iteration_traces (i : nat) (st st' : loop_state) (c : control) :
  body i st = Ok (st', c) ->
  exists loss,
    validation_loss X y (st_weights st) (st_bias st) = Ok loss /\
    train_losses st' =
      train_losses st ++ (if reporting print_loss i then [loss] else []) /\
    match X_val, y_val with
    | Some Xv, Some yv =>
        exists v,
          validation_loss Xv yv (st_weights st) (st_bias st) = Ok v /\
          val_losses st' =
            if reporting print_loss i
            then option_map (fun l => l ++ [v]) (val_losses st)
            else val_losses st
    | _, _ => val_losses st' = val_losses st
    end.
Proof.
  unfold body, fit_iteration, validation_loss.
  destruct (forward X (st_weights st) (st_bias st)) as [p|e]; simpl;
    [|discriminate].
  destruct (mean_log_loss y p) as [loss|e]; simpl; [|discriminate].
  set (st1 := report_training print_loss i loss st).
  assert (H1 : train_losses st1 =
               train_losses st ++
               (if reporting print_loss i then [loss] else []) /\
               val_losses st1 = val_losses st /\
               st_weights st1 = st_weights st /\ st_bias st1 = st_bias st).
  { unfold st1, report_training. destruct (reporting print_loss i);
      cbn [train_losses val_losses st_weights st_bias];
      rewrite ?app_nil_r; auto. }
  destruct H1 as [Ht1 [Hv1 [Hw1 Hb1]]].
  assert (H2 : forall st2 c2,
             validation X_val y_val patience_arg print_loss i st1
             = Ok (st2, c2) ->
             train_losses st2 = train_losses st1 /\
             match X_val, y_val with
             | Some Xv, Some yv =>
                 exists v,
                   (y_pred_val <- forward Xv (st_weights st) (st_bias st) ;;
                    mean_log_loss yv y_pred_val) = Ok v /\
                   val_losses st2 =
                     if reporting print_loss i
                     then option_map (fun l => l ++ [v]) (val_losses st)
                     else val_losses st
             | _, _ => val_losses st2 = val_losses st
             end).
  { intros st2 c2. unfold validation.
    destruct X_val as [Xv|]; [destruct y_val as [yv|]|];
      try (intros [= <- <-]; auto).
    rewrite Hw1, Hb1. unfold validation_loss.
    destruct (y_pred_val <- forward Xv (st_weights st) (st_bias st) ;;
              mean_log_loss yv y_pred_val) as [v|e]; cbn [bind];
      [|discriminate].
    unfold early_stopping.
    destruct (stop_now patience_arg _); intros [= <- <-];
      cbn [train_losses val_losses record_validation];
      (split; [reflexivity|]); exists v; (split; [reflexivity|]);
      now rewrite Hv1. }
  destruct (validation X_val y_val patience_arg print_loss i st1)
    as [[st2 c2]|e] eqn:Hv; simpl; [|discriminate].
  destruct (H2 st2 c2 eq_refl) as [Ht2 Hv2].
  intros H. exists loss. split; [reflexivity|].
  assert (Hfin : train_losses st' = train_losses st2 /\
                 val_losses st' = val_losses st2).
  { destruct c2.
    - destruct (gradient_descent self X y p st2) as [st3|e] eqn:Hg;
        simpl in H; [|discriminate].
      injection H as <- <-. apply gradient_descent_traces in Hg.
      now destruct Hg as [-> [-> _]].
    - injection H as <- <-. auto. }
  destruct Hfin as [-> ->]. split; [congruence|].
  destruct X_val as [Xv|]; [destruct y_val as [yv|]|]; exact Hv2.
Qed.

Lemma body_records (i : nat) (st st' : loop_state) (c : control) :
  trained self X y i st ->
  reported X_val y_val print_loss i st ->
  records st ->
  body i st = Ok (st', c) -> records st'.
Proof.
  intros [Hp _] [_ [Hlen Hval]] [Htr Hvr] Hb.
  apply fit_iteration_traces in Hb.
  destruct Hb as [loss [Hloss [Htl Hvl]]].
  assert (Hw : st_weights st = fst (params_after X y (learning_rate self) i))
    by (now rewrite <- Hp).
  assert (Hbias : st_bias st = snd (params_after X y (learning_rate self) i))
    by (now rewrite <- Hp).
  rewrite Hw, Hbias in Hloss.
  assert (Hi : reporting print_loss i = true ->
               (100 * (if print_loss then reports i else 0))%nat = i).
  { unfold reporting. destruct print_loss; [|discriminate]. cbn [andb].
    intros E. apply Nat.eqb_eq in E. now apply reports_exact. }
  split.
  - intros j l. rewrite Htl.
    destruct (reporting print_loss i) eqn:Er.
    + intros Hj. apply nth_error_snoc in Hj.
      destruct Hj as [Hj|[-> ->]]; [now apply Htr|].
      rewrite Hlen, (Hi eq_refl). exact Hloss.
    + rewrite app_nil_r. apply Htr.
  - intros trace j v.
    destruct X_val as [Xv|]; [destruct y_val as [yv|]|].
    + destruct Hvl as [v0 [Hv0 ->]]. rewrite Hw, Hbias in Hv0.
      destruct Hval as [trace0 [Ht0 Hl0]].
      destruct (reporting print_loss i) eqn:Er.
      * rewrite Ht0. cbn [option_map]. intros [= <-] Hj.
        apply nth_error_snoc in Hj.
        destruct Hj as [Hj|[-> ->]]; [now apply (Hvr trace0)|].
        exists Xv, yv. split; [reflexivity|]. split; [reflexivity|].
        rewrite Hl0, (Hi eq_refl). exact Hv0.
      * apply Hvr.
    + rewrite Hvl. apply Hvr.
    + rewrite Hvl. apply Hvr.
Qed.

Lemma loop_records (n i : nat) (st st' : loop_state) (s : option nat) :
  trained self X y i st ->
  reported X_val y_val print_loss i st ->
  records st ->
  for_range body i n st = Ok (st', s) -> records st'.
Proof.
  revert i st. induction n as [|n IH]; intros i st Ht Hrep Hrec; simpl.
  - now intros [= <- <-].
  - destruct (body i st) as [[st1 c]|e] eqn:Hb; [|discriminate].
    pose proof (body_records Ht Hrep Hrec Hb) as Hrec1.
    destruct c.
    + apply IH; [| |exact Hrec1].
      * exact (@body_trained num ops self X y X_val y_val patience_arg
                 print_loss X_rectangular y_length X_nonempty i st st1
                 Continue Ht Hb).
      * exact (@body_reported num ops self X y X_val y_val patience_arg
                 print_loss i st st1 Continue Hrep Hb).
    + now intros [= <- <-].
Qed.

End Curves.

Section CurveClaims.

Context {num : Type} {ops : FloatOps num}.

(** X11.  What the plotted curves hold.  On well-shaped training data,
    the [j]-th entry of the training curve of a completed [fit] is the
    training loss at the parameters reached after [100 j] updates, and the
    [j]-th entry of the validation curve is the validation loss at the same
    parameters: each loss is taken before the update of its iteration, so
    the first entry is the loss of the all-zero parameters. *)
Theorem curves_hold_losses_before_updates
    (self : LogisticRegression num) (X_train : matrix num)
    (y_train : list num) (X_val : option (matrix num))
    (y_val : option (list num)) (patience_arg : option Z)
    (print_loss : bool) (r : fit_result) :
  rectangular X_train ->
  length y_train = nrows X_train ->
  nrows X_train <> 0 ->
  fit self X_train y_train X_val y_val patience_arg print_loss true = Ok r ->
  exists f,
    shown r = Some f /\
    (forall j loss,
        nth_error (training_curve f) j = Some loss ->
        loss_after self X_train y_train X_train y_train (100 * j) = Ok loss)
    /\
    (forall trace j v,
        validation_curve f = Some trace -> nth_error trace j = Some v ->
        exists Xv yv,
          X_val = Some Xv /\ y_val = Some yv /\
          loss_after self X_train y_train Xv yv (100 * j) = Ok v).
Proof.
  intros Hrect Hlen HN. unfold fit.
  destruct (for_range
              (fit_iteration self X_train y_train X_val y_val patience_arg
                 print_loss) 0 (Z.to_nat (max_iteration self))
              (initial_state X_train X_val y_val))
    as [[st s]|e] eqn:Hl; simpl; [|discriminate].
  intros [= <-]. simpl.
  apply (@loop_records num ops self X_train y_train X_val y_val patience_arg
           print_loss Hrect Hlen HN) in Hl.
  - destruct Hl as [Htr Hvr]. unfold plot.
    destruct X_val as [Xv|]; [destruct y_val as [yv|]|];
      eexists; (split; [reflexivity|]); simpl; (split; [exact Htr|]).
    + exact Hvr.
    + discriminate.
    + discriminate.
  - apply initial_trained.
  - unfold reported, traces, initial_state. simpl.
    split; [reflexivity|]. split.
    + now destruct print_loss.
    + destruct X_val as [Xv|]; [destruct y_val as [yv|]|]; try reflexivity.
      exists []. split; [reflexivity|]. now destruct print_loss.
  - split.
    + intros j loss Hj. destruct j; discriminate.
    + intros trace j v Ht Hj. unfold initial_state in Ht. simpl in Ht.
      destruct X_val as [Xv|]; [destruct y_val as [yv|]|];
        try discriminate.
      injection Ht as <-. destruct j; discriminate.
Qed.

End CurveClaims.

(** ** The sign of the loss *)

Section LossSign.

Local Open Scope R_scope.





End LossSign.

Section SampleCurves.

Import Sample.
Local Open Scope R_scope.

Lemma curves_hold_losses_before_updates_witness :
  exists r f,
    fit (clf None) X2 y2 (Some Xv1) (Some yv1) None true true = Ok r /\
    shown r = Some f /\
    (forall j loss,
        nth_error (training_curve f) j = Some loss ->
        loss_after (clf None) X2 y2 X2 y2 (100 * j) = Ok loss).
Proof.
  destruct (sample_runs_on None true true) as [r [Hr _]].
  destruct (@curves_hold_losses_before_updates xreal xreal_ops (clf None) X2
              y2 (Some Xv1) (Some yv1) None true r)
    as [f [Hf [Htr _]]].
  - repeat constructor.
  - reflexivity.
  - discriminate.
  - exact Hr.
  - exists r, f. auto.
Defined.


End SampleCurves.

(** ** The shape of [sigmoid] *)

Section SigmoidShape.

Local Open Scope R_scope.



End SigmoidShape.
